(** * oneflow/python/ops/layers.py: layer constructors over an op-graph builder

    The seven functions of [layers.py] validate their arguments, register
    parameter variables and build operator nodes through the framework API
    ([flow.get_variable], [flow.matmul], [flow.user_op_builder], ...).  The
    framework itself is not part of the file, so it is a parameter of the
    embedding: a [Framework] answers every call either with a handle or with
    an exception.  The functions are written in a state-and-exception monad
    whose state is the log of every variable and operator node the framework
    has accepted so far; the state survives an exception, so that what a
    failing call has already built stays visible. *)

From Stdlib Require Import ZArith List String Ascii Bool Lia DecimalString.
Import ListNotations.

Local Open Scope string_scope.
Local Open Scope Z_scope.

(** ** Python values and built-ins used by the file *)

Module Py.

(** Arguments whose Python type the code inspects with [isinstance]. *)
Inductive Val :=
| PInt (z : Z)
| PList (l : list Z)
| PTuple (l : list Z)
| PStr (s : string)
| PNone.

(** A float is only passed through ([epsilon], [momentum]) or produced by
    [float(n)] from an integer in range; it is never computed with. *)
Inductive Float :=
| FloatLit (literal : string)
| FloatOfInt (z : Z).

Inductive Num :=
| NumInt (z : Z)
| NumFloat (f : Float).

(** Exceptions.  [FrameworkError] stands for whatever exception a call
    into the framework (or into the activation callback) lets escape; the
    others are raised by statements of [layers.py] itself. *)
Inductive Exn :=
| AssertionError
| ValueError (msg : string)
| IndexError
| OverflowError
| FrameworkError (msg : string).

Definition len {A} (l : list A) : Z := Z.of_nat (List.length l).

(** [str.upper()].  Only ASCII letters are mapped; the results are only
    compared with the ASCII words NCHW and NHWC, which no other character
    maps into. *)
Definition upper_ascii (c : ascii) : ascii :=
  let n := nat_of_ascii c in
  if (97 <=? n)%nat && (n <=? 122)%nat then ascii_of_nat (n - 32) else c.

Fixpoint upper (s : string) : string :=
  match s with
  | EmptyString => EmptyString
  | String c r => String (upper_ascii c) (upper r)
  end.

(** [l[i]] with Python's negative indices; [None] is IndexError. *)
Definition index {A} (l : list A) (i : Z) : option A :=
  if (0 <=? i) && (i <? len l) then nth_error l (Z.to_nat i)
  else if (- len l <=? i) && (i <? 0) then nth_error l (Z.to_nat (i + len l))
  else None.

(** [l[b:]] *)
Definition slice_from {A} (l : list A) (b : Z) : list A :=
  let start := if b <? 0 then Z.max 0 (b + len l) else Z.min b (len l) in
  skipn (Z.to_nat start) l.

(** [str(n)] for a natural number. *)
Definition str_of_nat (n : nat) : string :=
  NilEmpty.string_of_uint (Nat.to_uint n).

(** [float(n)] of an int raises OverflowError when [n], rounded to the
    nearest double, is out of range: from 2**1024 - 2**970 on. *)
Definition float_overflows (n : Z) : bool := 2 ^ 1024 - 2 ^ 970 <=? Z.abs n.

(** The double-quote character, for messages that quote a word. *)
Definition dquote : string := String (ascii_of_nat 34) EmptyString.

Definition quoted (word : string) : string := dquote ++ word ++ dquote.

End Py.

(** ** Handles, variables and operator calls of the framework *)

Inductive DType := float16 | float32 | float64 | int8 | int32 | int64.

Definition dtype_eqb (a b : DType) : bool :=
  match a, b with
  | float16, float16 | float32, float32 | float64, float64
  | int8, int8 | int32, int32 | int64, int64 => true
  | _, _ => false
  end.

(** [distribute_util.auto()], [broadcast()] and [split(axis)] return one
    shared object each; any other object is a [ForeignDistribute]. *)
Inductive Distribute :=
| AutoDistribute
| BroadcastDistribute
| SplitDistribute (axis : Z)
| ForeignDistribute (tag : nat).

(** Python's [a is b] where [b] is one of the shared objects. *)
Definition distribute_is (a b : Distribute) : bool :=
  match a, b with
  | AutoDistribute, AutoDistribute => true
  | BroadcastDistribute, BroadcastDistribute => true
  | SplitDistribute i, SplitDistribute j => i =? j
  | _, _ => false
  end.

Inductive Initializer :=
| constant_initializer (value : Py.Num)
| zeros_initializer
| ones_initializer
| CustomInitializer (tag : nat).

Inductive Regularizer := CustomRegularizer (tag : nat).

(** A [BlobDef]: the opaque handle, with the fields the file reads. *)
Record Blob := mkBlob {
  blob_name : string;
  shape : list Z;
  dtype : DType;
  distribute : option Distribute
}.

(** [blob.with_distribute(d)] *)
Definition with_distribute (b : Blob) (d : Distribute) : Blob :=
  mkBlob (blob_name b) (shape b) (dtype b) (Some d).

(** The keyword arguments of one [flow.get_variable] call; an argument the
    caller leaves out is [None]. *)
Record VariableConf := mkVariableConf {
  var_name : string;
  var_shape : list Z;
  var_dtype : DType;
  var_initializer : Initializer;
  var_regularizer : option Regularizer;
  var_trainable : bool;
  var_model_name : option string;
  var_distribute : option Distribute
}.

(** An activation is a caller-supplied callable, known by a tag only. *)
Inductive Callback := PyCallable (tag : string).

Inductive Call :=
| get_variable (conf : VariableConf)
| reshape (x : Blob) (new_shape : list Z)
| matmul (a b : Blob) (transpose_b : bool) (name : string)
| bias_add (value bias : Blob) (data_format : option string) (name : string)
| nn_conv2d (input filters : Blob) (strides : Py.Val) (padding : string)
    (data_format : string) (dilations : Py.Val) (groups : Z)
    (name : option string)
| constant (value : Z) (dt : DType) (sh : list Z)
| transpose (x : Blob) (perm : list Z)
| call_activation (f : Callback) (x : Blob) (name : string).

Inductive AttrValue :=
| AttrBool (b : bool)
| AttrInt (z : Z)
| AttrFloat (f : Py.Float)
| AttrStr (s : string).

(** What a [user_op_builder] has accumulated. *)
Record UserOp := mkUserOp {
  op_name : string;
  op_type_name : string;
  op_inputs : list (string * list Blob);
  op_outputs : list string;
  op_attrs : list (string * AttrValue)
}.

Definition user_op_builder (name : string) : UserOp := mkUserOp name "" [] [] [].

Definition Op (type_name : string) (b : UserOp) : UserOp :=
  mkUserOp (op_name b) type_name (op_inputs b) (op_outputs b) (op_attrs b).

Definition Input (key : string) (blobs : list Blob) (b : UserOp) : UserOp :=
  mkUserOp (op_name b) (op_type_name b) (op_inputs b ++ [(key, blobs)])
    (op_outputs b) (op_attrs b).

Definition Output (key : string) (b : UserOp) : UserOp :=
  mkUserOp (op_name b) (op_type_name b) (op_inputs b) (op_outputs b ++ [key])
    (op_attrs b).

Definition Attr (key : string) (v : AttrValue) (b : UserOp) : UserOp :=
  mkUserOp (op_name b) (op_type_name b) (op_inputs b) (op_outputs b)
    (op_attrs b ++ [(key, v)]).

(** Method chaining: [b |> Op "x" |> Output "y"] is [b.Op("x").Output("y")]. *)
Notation "b |> f" := (f b) (at level 45, left associativity, only parsing).

(** One entry of the log: an accepted call with the handle(s) it returned. *)
Inductive Event :=
| OpEvent (c : Call) (out : Blob)
| UserOpEvent (op : UserOp) (outs : list Blob).

(** The framework: the suffix [id_util.UniqueStr] appends, whether the
    enclosing global function is trainable, and the answer to every call
    given the log so far ([inl] is an exception escaping the call). *)
Record Framework := mkFramework {
  unique_id : nat -> string;
  IsTrainable : bool;
  run_op : list Event -> Call -> string + Blob;
  run_user_op : list Event -> UserOp -> string + list Blob
}.

Record State := mkState {
  trace : list Event;
  next_uid : nat
}.

Definition init : State := mkState [] 0.

(** ** Classifying the log *)

Definition is_variable_call (c : Call) : bool :=
  match c with get_variable _ => true | _ => false end.

Definition is_activation_call (c : Call) : bool :=
  match c with call_activation _ _ _ => true | _ => false end.

(** A parameter variable registered through [flow.get_variable]. *)
Definition is_variable (e : Event) : bool :=
  match e with OpEvent c _ => is_variable_call c | UserOpEvent _ _ => false end.

(** A call of the activation callback. *)
Definition is_activation (e : Event) : bool :=
  match e with OpEvent c _ => is_activation_call c | UserOpEvent _ _ => false end.

(** An operator node built by a statement of [layers.py]. *)
Definition is_op_node (e : Event) : bool :=
  negb (is_variable e) && negb (is_activation e).

Definition count (p : Event -> bool) (l : list Event) : nat :=
  List.length (filter p l).

(** ** The monad: state that survives exceptions *)

Definition M (A : Type) : Type := State -> (Py.Exn + A) * State.

Definition ret {A} (a : A) : M A := fun st => (inr a, st).

Definition bind {A B} (m : M A) (k : A -> M B) : M B :=
  fun st =>
    match m st with
    | (inl e, st') => (inl e, st')
    | (inr a, st') => k a st'
    end.

Definition raise {A} (e : Py.Exn) : M A := fun st => (inl e, st).

Notation "x <- m ;; k" := (bind m (fun x => k))
  (at level 61, m at next level, right associativity).
Notation "m ;; k" := (bind m (fun _ => k))
  (at level 61, right associativity).

(** [assert b] *)
Definition py_assert (b : bool) : M unit :=
  if b then ret tt else raise Py.AssertionError.

(** [float(n)] as a statement. *)
Definition py_float (n : Z) : M Py.Float :=
  if Py.float_overflows n then raise Py.OverflowError
  else ret (Py.FloatOfInt n).

(** [l[i]] as a statement: IndexError when out of range. *)
Definition getitem {A} (l : list A) (i : Z) : M A :=
  match Py.index l i with
  | Some a => ret a
  | None => raise Py.IndexError
  end.

(** ** The framework API as monadic statements *)

Section Layers.

Variable fw : Framework.

(** [id_util.UniqueStr(prefix)] *)
Definition UniqueStr (prefix : string) : M string :=
  fun st =>
    (inr (prefix ++ unique_id fw (next_uid st)),
     mkState (trace st) (S (next_uid st))).

(** Any [flow.*] function, or the activation callback: the framework
    either raises, and nothing is logged, or returns a handle, and the
    call is logged. *)
Definition call (c : Call) : M Blob :=
  fun st =>
    match run_op fw (trace st) c with
    | inl msg => (inl (Py.FrameworkError msg), st)
    | inr out => (inr out, mkState (trace st ++ [OpEvent c out]) (next_uid st))
    end.

(** [builder.Build().InferAndTryRun().RemoteBlobList()] *)
Definition InferAndTryRun (op : UserOp) : M (list Blob) :=
  fun st =>
    match run_user_op fw (trace st) op with
    | inl msg => (inl (Py.FrameworkError msg), st)
    | inr outs =>
        (inr outs, mkState (trace st ++ [UserOpEvent op outs]) (next_uid st))
    end.

(** [x if x is not None else d], and [x or d] for an optional message. *)
Definition or_default {A} (x : option A) (d : A) : A :=
  match x with Some a => a | None => d end.

(** [s if s else d] for an optional string: [None] and [""] are falsy. *)
Definition if_truthy (s : option string) (d : string) : string :=
  match s with
  | Some a => if (a =? "")%string then d else a
  | None => d
  end.

(** *** dense (layers.py, lines 30-126) *)
Definition dense (inputs : Blob) (units : Z) (activation : option Callback)
    (use_bias : bool)
    (kernel_initializer bias_initializer : option Initializer)
    (kernel_regularizer bias_regularizer : option Regularizer)
    (trainable : bool) (name : option string)
    (model_distribute : Distribute) : M Blob :=
  let in_shape := shape inputs in
  let in_num_axes := Py.len in_shape in
  py_assert (in_num_axes >=? 2) ;;
  name_prefix <- match name with
                 | Some n => ret n
                 | None => UniqueStr "Dense_"
                 end ;;
  inputs <- (if in_num_axes >? 2
             then (last <- getitem in_shape (-1) ;;
                   call (reshape inputs [-1; last]))
             else ret inputs) ;;
  py_assert (distribute_is model_distribute AutoDistribute
             || distribute_is model_distribute BroadcastDistribute
             || distribute_is model_distribute (SplitDistribute 0)) ;;
  (if distribute_is model_distribute (SplitDistribute 0)
   then py_assert (in_num_axes =? 2)
   else ret tt) ;;
  in_features <- getitem (shape inputs) 1 ;;
  weight <- call (get_variable {|
      var_name := name_prefix ++ "-weight";
      var_shape := [units; in_features];
      var_dtype := dtype inputs;
      var_initializer :=
        or_default kernel_initializer (constant_initializer (Py.NumInt 0));
      var_regularizer := kernel_regularizer;
      var_trainable := trainable;
      var_model_name := Some "weight";
      var_distribute := Some model_distribute |}) ;;
  let weight := with_distribute weight model_distribute in
  out <- call (matmul inputs weight true (name_prefix ++ "_matmul")) ;;
  out <- (if use_bias
          then (bias <- call (get_variable {|
                    var_name := name_prefix ++ "-bias";
                    var_shape := [units];
                    var_dtype := dtype inputs;
                    var_initializer :=
                      or_default bias_initializer
                        (constant_initializer (Py.NumInt 0));
                    var_regularizer := bias_regularizer;
                    var_trainable := trainable;
                    var_model_name := Some "bias";
                    var_distribute := Some model_distribute |}) ;;
                let bias := with_distribute bias model_distribute in
                call (bias_add out bias None (name_prefix ++ "_bias_add")))
          else ret out) ;;
  out <- match activation with
         | Some f => call (call_activation f out (name_prefix ++ "_activation"))
         | None => ret out
         end ;;
  out <- (if in_num_axes >? 2
          then call (reshape out (removelast in_shape ++ [units]))
          else ret out) ;;
  ret out.

(** *** conv2d (layers.py, lines 129-255) *)
Definition conv2d (inputs : Blob) (filters : Z)
    (kernel_size strides : Py.Val) (padding data_format : string)
    (dilation_rate groups : Py.Val) (activation : option Callback)
    (use_bias : bool)
    (kernel_initializer bias_initializer : option Initializer)
    (kernel_regularizer bias_regularizer : option Regularizer)
    (trainable : bool) (name weight_name bias_name : option string)
    : M Blob :=
  name_prefix <- match name with
                 | Some n => ret n
                 | None => UniqueStr "Conv2D_"
                 end ;;
  kernel_size <- match kernel_size with
                 | Py.PInt k => ret [k; k]
                 | Py.PList l | Py.PTuple l => ret l
                 | _ => raise Py.AssertionError
                 end ;;
  groups <- match groups with
            | Py.PInt g => ret g
            | _ => raise Py.AssertionError
            end ;;
  py_assert (groups >? 0) ;;
  py_assert (groups <=? filters) ;;
  py_assert (filters mod groups =? 0) ;;
  weight_shape <-
    (if (Py.upper data_format =? "NCHW")%string then
       channels <- getitem (shape inputs) 1 ;;
       py_assert (groups <=? channels) ;;
       py_assert (channels mod groups =? 0) ;;
       ret ([filters; channels / groups] ++ kernel_size)%list
     else if (Py.upper data_format =? "NHWC")%string then
       py_assert (groups =? 1) ;;
       channels <- getitem (shape inputs) 3 ;;
       py_assert (groups <=? channels) ;;
       py_assert (channels mod groups =? 0) ;;
       k0 <- getitem kernel_size 0 ;;
       k1 <- getitem kernel_size 1 ;;
       ret [filters; k0; k1; channels / groups]
     else raise (Py.ValueError "data_format must be in NCHW or NHWC")) ;;
  weight <- call (get_variable {|
      var_name := if_truthy weight_name (name_prefix ++ "-weight");
      var_shape := weight_shape;
      var_dtype := dtype inputs;
      var_initializer :=
        or_default kernel_initializer (constant_initializer (Py.NumInt 0));
      var_regularizer := kernel_regularizer;
      var_trainable := trainable;
      var_model_name := Some "weight";
      var_distribute := None |}) ;;
  output <- call (nn_conv2d inputs weight strides padding data_format
                    dilation_rate groups name) ;;
  output <- (if use_bias
             then (bias <- call (get_variable {|
                       var_name := if_truthy bias_name (name_prefix ++ "-bias");
                       var_shape := [filters];
                       var_dtype := dtype inputs;
                       var_initializer :=
                         or_default bias_initializer
                           (constant_initializer (Py.NumInt 0));
                       var_regularizer := bias_regularizer;
                       var_trainable := trainable;
                       var_model_name := Some "bias";
                       var_distribute := None |}) ;;
                   call (bias_add output bias (Some data_format)
                           (name_prefix ++ "-bias_add")))
             else ret output) ;;
  output <- match activation with
            | Some f =>
                call (call_activation f output (name_prefix ++ "-activation"))
            | None => ret output
            end ;;
  ret output.

(** *** layer_norm (layers.py, lines 258-324)

    The builder methods update the builder in place and return it, so the
    bare statements [op.Input(...)] are rebindings of [op] here. *)
Definition layer_norm (inputs : Blob) (center scale trainable : bool)
    (begin_norm_axis begin_params_axis : Z) (epsilon : Py.Float)
    (name : option string) : M Blob :=
  name <- match name with
          | Some n => ret n
          | None => UniqueStr "LayerNorm_"
          end ;;
  let op := user_op_builder name
            |> Op "layer_norm"
            |> Input "x" [inputs]
            |> Output "y"
            |> Output "mean"
            |> Output "inv_variance" in
  let trainable := if negb center && negb scale then false else trainable in
  let param_shape := Py.slice_from (shape inputs) begin_params_axis in
  op <- (if center
         then (beta <- call (get_variable {|
                   var_name := name ++ "-beta";
                   var_shape := param_shape;
                   var_dtype := dtype inputs;
                   var_initializer :=
                     constant_initializer (Py.NumFloat (Py.FloatLit "0.0"));
                   var_regularizer := None;
                   var_trainable := trainable;
                   var_model_name := Some "beta";
                   var_distribute := Some BroadcastDistribute |}) ;;
               ret (op |> Input "beta" [beta]))
         else ret op) ;;
  op <- (if scale
         then (gamma <- call (get_variable {|
                   var_name := name ++ "-gamma";
                   var_shape := param_shape;
                   var_dtype := dtype inputs;
                   var_initializer :=
                     constant_initializer (Py.NumFloat (Py.FloatLit "1.0"));
                   var_regularizer := None;
                   var_trainable := trainable;
                   var_model_name := Some "gamma";
                   var_distribute := Some BroadcastDistribute |}) ;;
               ret (op |> Input "gamma" [gamma] |> Output "normalized"))
         else ret op) ;;
  let op := op
            |> Attr "center" (AttrBool center)
            |> Attr "scale" (AttrBool scale)
            |> Attr "begin_norm_axis" (AttrInt begin_norm_axis)
            |> Attr "begin_params_axis" (AttrInt begin_params_axis)
            |> Attr "epsilon" (AttrFloat epsilon) in
  outs <- InferAndTryRun op ;;
  getitem outs 0.

(** *** layer_norm_grad (layers.py, lines 327-361) *)
Definition layer_norm_grad (dy x mean inv_variance : Blob)
    (begin_norm_axis : Z) (name : option string) : M Blob :=
  name <- match name with
          | Some n => ret n
          | None => UniqueStr "LayerNormGrad_"
          end ;;
  let op := user_op_builder name
            |> Op "layer_norm_grad"
            |> Input "dy" [dy]
            |> Input "x" [x]
            |> Input "mean" [mean]
            |> Input "inv_variance" [inv_variance]
            |> Output "dx"
            |> Attr "begin_norm_axis" (AttrInt begin_norm_axis)
            |> Attr "epsilon" (AttrFloat (Py.FloatLit "1e-5")) in
  outs <- InferAndTryRun op ;;
  getitem outs 0.

(** *** layer_norm_param_grad (layers.py, lines 364-403)

    Unpacking into four names raises ValueError, with Python's message,
    unless the list has exactly four elements. *)
Definition layer_norm_param_grad (dy norm gamma : Blob)
    (begin_params_axis : Z) (name : option string)
    : M (Blob * Blob * Blob) :=
  name <- match name with
          | Some n => ret n
          | None => UniqueStr "LayerNormGrad_"
          end ;;
  outs <- InferAndTryRun (user_op_builder name
                          |> Op "layer_norm_param_grad"
                          |> Input "dy" [dy]
                          |> Input "normalized" [norm]
                          |> Input "gamma" [gamma]
                          |> Output "normalized_diff"
                          |> Output "beta_diff"
                          |> Output "gamma_diff"
                          |> Output "reduce_buf"
                          |> Attr "begin_params_axis"
                               (AttrInt begin_params_axis)) ;;
  match outs with
  | [normalized_diff; beta_diff; gamma_diff; reduce_buf] =>
      ret (normalized_diff, beta_diff, gamma_diff)
  | _ =>
      raise (Py.ValueError
               (if (List.length outs <? 4)%nat
                then "not enough values to unpack (expected 4, got "
                     ++ Py.str_of_nat (List.length outs) ++ ")"
                else "too many values to unpack (expected 4)"))
  end.

(** *** batch_normalization (layers.py, lines 406-522) *)
Definition batch_normalization (inputs : Blob) (axis : Z)
    (momentum epsilon : Py.Float) (center scale : bool)
    (beta_initializer gamma_initializer : option Initializer)
    (beta_regularizer gamma_regularizer : option Regularizer)
    (moving_mean_initializer moving_variance_initializer : option Initializer)
    (trainable training : bool) (name : option string) : M Blob :=
  py_assert ((axis >=? - Py.len (shape inputs))
             && (axis <? Py.len (shape inputs))) ;;
  let axis := if axis <? 0 then axis + Py.len (shape inputs) else axis in
  dim <- getitem (shape inputs) axis ;;
  let params_shape := [dim] in
  let params_dtype :=
    if dtype_eqb (dtype inputs) float16 then float32 else dtype inputs in
  let training :=
    if negb (IsTrainable fw) || negb trainable then false else training in
  name <- match name with
          | None => UniqueStr "BatchNorm_"
          | Some n => ret n
          end ;;
  beta <- (if center
           then call (get_variable {|
                    var_name := name ++ "-beta";
                    var_shape := params_shape;
                    var_dtype := params_dtype;
                    var_initializer :=
                      or_default beta_initializer zeros_initializer;
                    var_regularizer := beta_regularizer;
                    var_trainable := trainable;
                    var_model_name := None;
                    var_distribute := Some BroadcastDistribute |})
           else call (constant 0 params_dtype params_shape)) ;;
  gamma <- (if scale
            then call (get_variable {|
                     var_name := name ++ "-gamma";
                     var_shape := params_shape;
                     var_dtype := params_dtype;
                     var_initializer :=
                       or_default gamma_initializer ones_initializer;
                     var_regularizer := gamma_regularizer;
                     var_trainable := trainable;
                     var_model_name := None;
                     var_distribute := Some BroadcastDistribute |})
            else call (constant 1 params_dtype params_shape)) ;;
  moving_mean <- call (get_variable {|
      var_name := name ++ "-moving_mean";
      var_shape := params_shape;
      var_dtype := params_dtype;
      var_initializer :=
        or_default moving_mean_initializer zeros_initializer;
      var_regularizer := None;
      var_trainable := false;
      var_model_name := None;
      var_distribute := Some BroadcastDistribute |}) ;;
  moving_variance <- call (get_variable {|
      var_name := name ++ "-moving_variance";
      var_shape := params_shape;
      var_dtype := params_dtype;
      var_initializer :=
        or_default moving_variance_initializer ones_initializer;
      var_regularizer := None;
      var_trainable := false;
      var_model_name := None;
      var_distribute := Some BroadcastDistribute |}) ;;
  let builder := user_op_builder name
                 |> Op "normalization"
                 |> Input "x" [inputs]
                 |> Input "moving_mean" [moving_mean]
                 |> Input "moving_variance" [moving_variance]
                 |> Input "gamma" [gamma]
                 |> Input "beta" [beta]
                 |> Output "y"
                 |> Attr "axis" (AttrInt axis)
                 |> Attr "epsilon" (AttrFloat epsilon)
                 |> Attr "training" (AttrBool training)
                 |> Attr "momentum" (AttrFloat momentum) in
  let builder := if trainable && training
                 then builder |> Output "mean" |> Output "inv_variance"
                 else builder in
  outs <- InferAndTryRun builder ;;
  getitem outs 0.

(** *** upsample (layers.py, lines 525-568)

    The two [float(...)] conversions are evaluated while the builder chain
    runs, after the transpose of an NHWC input and before the op is built. *)
Definition upsample (x : Blob) (size : Py.Val)
    (data_format interpolation : string) (name : option string) : M Blob :=
  name <- match name with
          | None => UniqueStr "Upsample2D_"
          | Some n => ret n
          end ;;
  scales <- match size with
            | Py.PInt n => ret (n, n)
            | Py.PList l | Py.PTuple l =>
                py_assert (Py.len l =? 2) ;;
                height_scale <- getitem l 0 ;;
                width_scale <- getitem l 1 ;;
                ret (height_scale, width_scale)
            | _ => raise Py.AssertionError
            end ;;
  let '(height_scale, width_scale) := scales in
  (if negb (interpolation =? "nearest")%string
      && negb (interpolation =? "bilinear")%string
   then raise (Py.ValueError
                 ("interpolation must be " ++ Py.quoted "nearest" ++ " or "
                  ++ Py.quoted "bilinear" ++ "."))
   else ret tt) ;;
  (if negb (Py.upper data_format =? "NCHW")%string
      && negb (Py.upper data_format =? "NHWC")%string
   then raise (Py.ValueError
                 ("data_format must be " ++ Py.quoted "NHWC" ++ " or "
                  ++ Py.quoted "NCHW" ++ "."))
   else ret tt) ;;
  let need_transpose := (Py.upper data_format =? "NHWC")%string in
  x <- (if need_transpose then call (transpose x [0; 3; 1; 2]) else ret x) ;;
  height_float <- py_float height_scale ;;
  width_float <- py_float width_scale ;;
  outs <- InferAndTryRun (user_op_builder name
                          |> Op "upsample"
                          |> Input "x" [x]
                          |> Output "y"
                          |> Attr "height_scale" (AttrFloat height_float)
                          |> Attr "width_scale" (AttrFloat width_float)
                          |> Attr "data_format" (AttrStr "channels_first")
                          |> Attr "interpolation" (AttrStr interpolation)) ;;
  y <- getitem outs 0 ;;
  y <- (if need_transpose then call (transpose y [0; 2; 3; 1]) else ret y) ;;
  ret y.

End Layers.

(** ** A small framework to run the functions on

    [demo_fw] accepts every call, names the handle after the call and its
    position in the log, and infers shapes the obvious way.  Like the
    framework's own [nn.conv2d], it rejects a padding other than VALID or
    SAME. *)

Module Demo.

Definition dim (sh : list Z) (i : nat) : Z := nth i sh 0.

Definition numel (sh : list Z) : Z := fold_right Z.mul 1 sh.

Definition resolve (x : Blob) (new_shape : list Z) : list Z :=
  let known := numel (filter (fun d => negb (d =? -1)) new_shape) in
  map (fun d => if d =? -1 then numel (shape x) / known else d) new_shape.

Definition kind (c : Call) : string :=
  match c with
  | get_variable conf => var_name conf
  | reshape _ _ => "reshape"
  | matmul _ _ _ _ => "matmul"
  | bias_add _ _ _ _ => "bias_add"
  | nn_conv2d _ _ _ _ _ _ _ _ => "conv2d"
  | constant _ _ _ => "constant"
  | transpose _ _ => "transpose"
  | call_activation (PyCallable tag) _ _ => tag
  end.

Definition out_shape (c : Call) : list Z :=
  match c with
  | get_variable conf => var_shape conf
  | reshape x new_shape => resolve x new_shape
  | matmul a b transpose_b _ =>
      [dim (shape a) 0; dim (shape b) (if transpose_b then 0 else 1)]
  | bias_add value _ _ _ => shape value
  | nn_conv2d input filters _ _ data_format _ _ _ =>
      if (Py.upper data_format =? "NCHW")%string
      then [dim (shape input) 0; dim (shape filters) 0;
            dim (shape input) 2; dim (shape input) 3]
      else [dim (shape input) 0; dim (shape input) 1;
            dim (shape input) 2; dim (shape filters) 0]
  | constant _ _ sh => sh
  | transpose x perm => map (fun p => dim (shape x) (Z.to_nat p)) perm
  | call_activation _ x _ => shape x
  end.

Definition out_dtype (c : Call) : DType :=
  match c with
  | get_variable conf => var_dtype conf
  | reshape x _ | matmul x _ _ _ | bias_add x _ _ _
  | nn_conv2d x _ _ _ _ _ _ _ | transpose x _ | call_activation _ x _ =>
      dtype x
  | constant _ dt _ => dt
  end.

Definition accepts (c : Call) : bool :=
  match c with
  | nn_conv2d _ _ _ padding _ _ _ _ =>
      (Py.upper padding =? "VALID")%string || (Py.upper padding =? "SAME")%string
  | _ => true
  end.

Definition run_op (log : list Event) (c : Call) : string + Blob :=
  if accepts c
  then inr (mkBlob (kind c ++ ":" ++ Py.str_of_nat (List.length log))
              (out_shape c) (out_dtype c) None)
  else inl "padding must be VALID or SAME".

Definition first_input (op : UserOp) : Blob :=
  match op_inputs op with
  | (_, x :: _) :: _ => x
  | _ => mkBlob "" [] float32 None
  end.

Definition run_user_op (log : list Event) (op : UserOp) : string + list Blob :=
  inr (map (fun key =>
              mkBlob (op_name op ++ "/" ++ key) (shape (first_input op))
                (dtype (first_input op)) None)
         (op_outputs op)).

Definition demo_fw : Framework :=
  mkFramework Py.str_of_nat true run_op run_user_op.

(** Sample inputs: a batch of 4 sequences of 5 feature vectors, and a batch
    of 4 three-channel 8x8 images. *)
Definition x3 : Blob := mkBlob "x3" [4; 5; 16] float32 None.
Definition image : Blob := mkBlob "image" [4; 3; 8; 8] float32 None.
Definition relu : Callback := PyCallable "relu".

Definition eps : Py.Float := Py.FloatLit "0.001".
Definition mom : Py.Float := Py.FloatLit "0.99".

(** conv2d(image, filters, 3, padding=..., data_format=..., groups=...,
    activation=...) *)
Definition conv (filters : Z) (padding data_format : string) (groups : Z)
    (activation : option Callback) : (Py.Exn + Blob) * State :=
  conv2d demo_fw image filters (Py.PInt 3) (Py.PInt 1) padding data_format
    (Py.PInt 1) (Py.PInt groups) activation true None None None None true
    None None None init.

(** dense(x, 10, activation=..., model_distribute=...) *)
Definition fc (x : Blob) (activation : option Callback)
    (model_distribute : Distribute) : (Py.Exn + Blob) * State :=
  dense demo_fw x 10 activation true None None None None true None
    model_distribute init.

(** batch_normalization(image, axis=..., center=..., trainable=...) *)
Definition bn (axis : Z) (center trainable : bool)
    : (Py.Exn + Blob) * State :=
  batch_normalization demo_fw image axis mom eps center true None None None
    None None None trainable true None init.

(** A framework like [demo_fw] whose user ops hand back only their first
    [n] outputs. *)
Definition truncating_fw (n : nat) : Framework :=
  mkFramework Py.str_of_nat true run_op
    (fun log op =>
       match run_user_op log op with
       | inr outs => inr (firstn n outs)
       | inl msg => inl msg
       end).

(** layer_norm(x3, center=..., scale=...) *)
Definition ln (center scale : bool) : (Py.Exn + Blob) * State :=
  layer_norm demo_fw x3 center scale true 1 (-1) (Py.FloatLit "1e-5") None
    init.

(** upsample(image, size=..., data_format=...) *)
Definition up (size : Py.Val) (data_format : string)
    : (Py.Exn + Blob) * State :=
  upsample demo_fw image size data_format "nearest" None init.

End Demo.

Local Open Scope list_scope.

(** ** Outcomes of a run *)

(** The validation errors: what an [assert] or [raise] of the file produces. *)
Definition is_validation_error {A} (r : Py.Exn + A) : bool :=
  match r with
  | inl Py.AssertionError | inl (Py.ValueError _) => true
  | _ => false
  end.

(** An exception raised by a statement of [layers.py] itself, as opposed to
    one escaping a call into the framework. *)
Definition is_own_error {A} (r : Py.Exn + A) : bool :=
  match r with
  | inl (Py.FrameworkError _) => false
  | inl _ => true
  | inr _ => false
  end.

Definition is_ValueError {A} (r : Py.Exn + A) : bool :=
  match r with inl (Py.ValueError _) => true | _ => false end.

Definition succeeds {A} (r : Py.Exn + A) : bool :=
  match r with inr _ => true | inl _ => false end.

(** ** What the validations check *)

(** The data-format test of conv2d and upsample. *)
Definition format_ok (data_format : string) : bool :=
  (Py.upper data_format =? "NCHW")%string
  || (Py.upper data_format =? "NHWC")%string.

(** The assertions conv2d runs before it looks at the data format. *)
Definition preceding_checks (kernel_size groups : Py.Val) (filters : Z) : bool :=
  match kernel_size with
  | Py.PInt _ | Py.PList _ | Py.PTuple _ => true
  | _ => false
  end
  && match groups with
     | Py.PInt g => (g >? 0) && (g <=? filters) && (filters mod g =? 0)
     | _ => false
     end.

(** The group-count constraints of conv2d, as its documentation lists them. *)
Definition group_constraints (inputs : Blob) (filters : Z)
    (data_format : string) (groups : Py.Val) : bool :=
  match groups with
  | Py.PInt g =>
      (g >? 0) && (g <=? filters) && (filters mod g =? 0)
      && (if (Py.upper data_format =? "NCHW")%string then
            match Py.index (shape inputs) 1 with
            | Some channels => (g <=? channels) && (channels mod g =? 0)
            | None => false
            end
          else if (Py.upper data_format =? "NHWC")%string then g =? 1
          else true)
  | _ => false
  end.

(** upsample: [size] is an int or a list or tuple of length 2. *)
Definition size_ok (size : Py.Val) : bool :=
  match size with
  | Py.PInt _ => true
  | Py.PList l | Py.PTuple l => Py.len l =? 2
  | _ => false
  end.

Definition interpolation_ok (interpolation : string) : bool :=
  (interpolation =? "nearest")%string || (interpolation =? "bilinear")%string.

(** batch_normalization: [-len(inputs.shape) <= axis < len(inputs.shape)]. *)
Definition axis_ok (inputs : Blob) (axis : Z) : bool :=
  (axis >=? - Py.len (shape inputs)) && (axis <? Py.len (shape inputs)).

Definition normalized_axis (inputs : Blob) (axis : Z) : Z :=
  if axis <? 0 then axis + Py.len (shape inputs) else axis.

(** ** batch_normalization: what is declared and with which flags *)

(** The parameter an event declares: a variable, by name, or the constant
    that stands in for beta or gamma ([None]); with its shape. *)
Definition param_of (e : Event) : list (option string * list Z) :=
  match e with
  | OpEvent (get_variable conf) _ => [(Some (var_name conf), var_shape conf)]
  | OpEvent (constant _ _ sh) _ => [(None, sh)]
  | _ => []
  end.

Definition params (l : list Event) : list (option string * list Z) :=
  flat_map param_of l.

Definition variable_of (e : Event) : list VariableConf :=
  match e with
  | OpEvent (get_variable conf) _ => [conf]
  | _ => []
  end.

Definition variables (l : list Event) : list VariableConf :=
  flat_map variable_of l.

Definition user_op_of (e : Event) : list UserOp :=
  match e with
  | UserOpEvent op _ => [op]
  | _ => []
  end.

Definition user_ops (l : list Event) : list UserOp := flat_map user_op_of l.

(** The name the layer runs under: the caller's, or a fresh one. *)
Definition layer_name (fw : Framework) (st : State) (prefix : string)
    (name : option string) : string :=
  match name with
  | Some n => n
  | None => (prefix ++ unique_id fw (next_uid st))%string
  end.

(** ** The shape of a log: core computation, activation, trailing reshape *)

Definition split_last (l : list Event) : option (list Event * Event) :=
  match rev l with
  | e :: pre => Some (rev pre, e)
  | [] => None
  end.

(** The handle a core computation ends in: its log holds no activation call
    and its last entry is the bias add when [use_bias], and the matmul or
    the convolution otherwise. *)
Definition core_result (use_bias : bool) (l : list Event) : option Blob :=
  if (count is_activation l =? 0)%nat then
    match split_last l with
    | Some (_, OpEvent (bias_add _ _ _ _) h) =>
        if use_bias then Some h else None
    | Some (_, OpEvent (matmul _ _ _ _) h)
    | Some (_, OpEvent (nn_conv2d _ _ _ _ _ _ _ _) h) =>
        if use_bias then None else Some h
    | _ => None
    end
  else None.

Definition core (use_bias : bool) (l : list Event) (out : Blob) : Prop :=
  core_result use_bias l = Some out.

(** The log [l] ends with a call returning [out]; [P] holds of what comes
    before it and of the call. *)
Definition ends_with (l : list Event) (out : Blob)
    (P : list Event -> Call -> Prop) : Prop :=
  match split_last l with
  | Some (pre, OpEvent c out') => out' = out /\ P pre c
  | _ => False
  end.

(** A log satisfying [P] with result [h], then [f(h, name=name)] returning
    [out]. *)
Definition activated (f : Callback) (name : string)
    (P : list Event -> Blob -> Prop) (l : list Event) (out : Blob) : Prop :=
  ends_with l out
    (fun pre c => exists h, c = call_activation f h name /\ P pre h).

(** A log satisfying [P] with result [a], then, when [reshaped], the
    reshape of [a] to [sh] returning [out]. *)
Definition with_trailing_reshape (reshaped : bool) (sh : list Z)
    (P : list Event -> Blob -> Prop) (l : list Event) (out : Blob) : Prop :=
  if reshaped
  then ends_with l out (fun pre c => exists a, c = reshape a sh /\ P pre a)
  else P l out.

(** ** The exported names *)













(** ** Reading handles and calls off a log *)

(** The handles the [flow.get_variable] calls of a log returned, in order. *)
Definition variable_output_of (e : Event) : list Blob :=
  match e with
  | OpEvent (get_variable _) out => [out]
  | _ => []
  end.

Definition variable_outputs (l : list Event) : list Blob :=
  flat_map variable_output_of l.

(** The handle every accepted [flow.*] call of a log returned, in order. *)
Definition output_of (e : Event) : list Blob :=
  match e with
  | OpEvent _ out => [out]
  | UserOpEvent _ _ => []
  end.

Definition outputs (l : list Event) : list Blob := flat_map output_of l.

Definition call_of (e : Event) : list Call :=
  match e with
  | OpEvent c _ => [c]
  | UserOpEvent _ _ => []
  end.

Definition calls (l : list Event) : list Call := flat_map call_of l.

(** The log ends with a user op whose first output is [out]:
    [....RemoteBlobList()[0]]. *)
Definition returns_first_output (l : list Event) (out : Blob) : Prop :=
  match split_last l with
  | Some (_, UserOpEvent _ (o :: _)) => o = out
  | _ => False
  end.

(** The handles a user op consumes, in the order it declares them. *)
Definition consumed (op : UserOp) : list Blob :=
  List.concat (map snd (op_inputs op)).

(** The shape [transpose(x, perm)] gives a handle of shape [s]. *)
Definition permute (perm : list Z) (s : list Z) : list Z :=
  map (fun p => nth (Z.to_nat p) s 0) perm.

(** conv2d: [kernel_size] as the tuple the code turns it into. *)
Definition kernel_tuple (kernel_size : Py.Val) : option (list Z) :=
  match kernel_size with
  | Py.PInt k => Some [k; k]
  | Py.PList l | Py.PTuple l => Some l
  | _ => None
  end.

(** dense: the rank and model_distribute the assertions let through. *)
Definition dense_accepts (inputs : Blob) (model_distribute : Distribute) : bool :=
  (Py.len (shape inputs) >=? 2)
  && (distribute_is model_distribute AutoDistribute
      || distribute_is model_distribute BroadcastDistribute
      || distribute_is model_distribute (SplitDistribute 0))
  && (if distribute_is model_distribute (SplitDistribute 0)
      then Py.len (shape inputs) =? 2
      else true).

(** The length of [l[b:]]. *)
Definition slice_len (n b : Z) : Z :=
  if b <? 0 then Z.min n (- b) else Z.max 0 (n - b).

(** Some event of the log is a call satisfying [p] that returned [h]. *)
Definition produced_by (l : list Event) (p : Call -> bool) (h : Blob) : Prop :=
  exists c, In (OpEvent c h) l /\ p c = true.

Definition is_matmul (c : Call) : bool :=
  match c with matmul _ _ _ _ => true | _ => false end.

Definition is_convolution (c : Call) : bool :=
  match c with nn_conv2d _ _ _ _ _ _ _ _ => true | _ => false end.

(** What a parameter starts from: the initializer of a variable, or the
    value of the constant that stands in for it. *)
Definition initial_value_of (e : Event) : list (Initializer + Z) :=
  match e with
  | OpEvent (get_variable conf) _ => [inl (var_initializer conf)]
  | OpEvent (constant value _ _) _ => [inr value]
  | _ => []
  end.

Definition initial_values (l : list Event) : list (Initializer + Z) :=
  flat_map initial_value_of l.

Definition param_dtype_of (e : Event) : list DType :=
  match e with
  | OpEvent (get_variable conf) _ => [var_dtype conf]
  | OpEvent (constant _ dt _) _ => [dt]
  | _ => []
  end.

Definition param_dtypes (l : list Event) : list DType :=
  flat_map param_dtype_of l.

(** upsample: the height and width scale [size] stands for. *)
Definition scales_of (size : Py.Val) : option (Z * Z) :=
  match size with
  | Py.PInt n => Some (n, n)
  | Py.PList [h; w] | Py.PTuple [h; w] => Some (h, w)
  | _ => None
  end.

(** How many ids a call draws from [id_util.UniqueStr] for its name. *)
Definition ids_drawn (name : option string) : nat :=
  match name with
  | Some _ => 0
  | None => 1
  end.

(** ** Reasoning about runs *)



Ltac unfold_run :=
  unfold bind, py_assert, getitem, py_float, call, InferAndTryRun, UniqueStr;
  unfold ret, raise.

Ltac run_simpl := cbn [fst snd trace next_uid].

(** A statement [let r := f args st in P] becomes [f args st = r -> P] for
    an unknown [r], so that the run is stepped through once. *)
Ltac run_init :=
  lazymatch goal with
  | |- let r := ?t in _ =>
      let E := fresh "E" in
      intros r; assert (E : t = r) by reflexivity; clearbody r; revert E
  end.

(** One step of symbolic execution: split on the next test or on the
    framework's next answer, in the order the statements run, until the run
    has ended in a result and a state.  Tests inside the arguments of a
    framework call are left alone. *)
Ltac run_head x :=
  lazymatch x with
  | run_op _ _ _ => destruct x eqn:?
  | run_user_op _ _ _ => destruct x eqn:?
  | match ?y with _ => _ end => run_head y
  | (match ?y with _ => _ end) _ => run_head y
  | context [match ?y with _ => _ end] => run_head y
  | _ => destruct x eqn:?
  end.

Ltac run_case :=
  lazymatch goal with
  | |- match ?x with _ => _ end = _ -> _ => run_head x
  | |- (match ?x with _ => _ end) _ = _ -> _ => run_head x
  end.

Ltac run_end :=
  lazymatch goal with
  | |- (_, _) = _ -> _ => intros <-; run_simpl
  end.

(** The framework's answers are kept as equations; most properties do not
    depend on them. *)
Ltac forget_answers :=
  repeat match goal with
    | H : run_op _ _ _ = _ |- _ => clear H
    | H : run_user_op _ _ _ = _ |- _ => clear H
    end.

Ltac run_go f :=
  try unfold f; unfold_run; run_simpl; repeat (run_case; run_simpl); run_end;
  forget_answers.

Ltac run f := run_init; run_go f.

(** The same, keeping the framework's answers. *)
Ltac run_keep f :=
  run_init; try unfold f; unfold_run; run_simpl;
  repeat (run_case; run_simpl); run_end.

(** Introduce the arguments of a statement, up to its [let r := ...]. *)
Ltac intro_args :=
  repeat lazymatch goal with
    | |- let _ := _ in _ => fail
    | |- forall _, _ => intro
    end.

(** Boolean comparisons in the hypotheses, as propositions for [lia]. *)
Ltac zbool :=
  rewrite ?Z.geb_leb, ?Z.gtb_ltb in *;
  repeat match goal with
    | H : (_ && _) = true |- _ => apply andb_true_iff in H; destruct H
    | H : (_ <=? _) = true |- _ => apply Z.leb_le in H
    | H : (_ <=? _) = false |- _ => apply Z.leb_gt in H
    | H : (_ <? _) = true |- _ => apply Z.ltb_lt in H
    | H : (_ <? _) = false |- _ => apply Z.ltb_ge in H
    | H : (_ =? _) = true |- _ => apply Z.eqb_eq in H
    | H : (_ =? _) = false |- _ => apply Z.eqb_neq in H
    end.

Lemma count_app (p : Event -> bool) (l1 l2 : list Event) :
  count p (l1 ++ l2) = (count p l1 + count p l2)%nat.
Proof. unfold count. now rewrite filter_app, length_app. Qed.

(** *** Python indexing *)

Lemma index_nonneg {A} (l : list A) (i : Z) :
  0 <= i -> Py.index l i = nth_error l (Z.to_nat i).
Proof.
  intros Hi. unfold Py.index, Py.len.
  destruct (Z.ltb_spec i (Z.of_nat (List.length l))) as [Hlt | Hge].
  - replace (0 <=? i) with true by (symmetry; now apply Z.leb_le). reflexivity.
  - rewrite andb_false_r.
    replace (i <? 0) with false by (symmetry; apply Z.ltb_ge; lia).
    rewrite andb_false_r. symmetry. apply nth_error_None. lia.
Qed.

Lemma index_in_range {A} (l : list A) (i : Z) :
  - Py.len l <= i < Py.len l -> exists a, Py.index l i = Some a.
Proof.
  intros Hi. unfold Py.index, Py.len in *.
  destruct (Z.leb_spec 0 i) as [H0 | H0]; cbn [andb].
  - replace (i <? Z.of_nat (List.length l)) with true
      by (symmetry; apply Z.ltb_lt; lia).
    destruct (nth_error l (Z.to_nat i)) eqn:E; [now eexists |].
    apply nth_error_None in E. lia.
  - replace (- Z.of_nat (List.length l) <=? i) with true
      by (symmetry; apply Z.leb_le; lia).
    replace (i <? 0) with true by (symmetry; apply Z.ltb_lt; lia).
    cbn [andb].
    destruct (nth_error l (Z.to_nat (i + Z.of_nat (List.length l)))) eqn:E;
      [now eexists |].
    apply nth_error_None in E. lia.
Qed.

Lemma len_two {A} (l : list A) :
  (Py.len l =? 2) = true -> exists a b, l = [a; b].
Proof.
  intros H. apply Z.eqb_eq in H. unfold Py.len in H.
  destruct l as [| a [| b [| c l]]]; cbn [List.length] in H; try lia.
  now exists a, b.
Qed.

Ltac absurd_index :=
  match goal with
  | H : (Py.len ?l =? 2) = true, I : Py.index ?l _ = None |- _ =>
      let a := fresh in let b := fresh in
      apply len_two in H; destruct H as (a & b & ->); discriminate I
  end.

Section Validation.

Variable fw : Framework.
Variable st : State.

Lemma conv2d_validation_no_effect inputs filters kernel_size strides padding
    data_format dilation_rate groups activation use_bias kernel_initializer
    bias_initializer kernel_regularizer bias_regularizer trainable name
    weight_name bias_name :
  let r := conv2d fw inputs filters kernel_size strides padding data_format
             dilation_rate groups activation use_bias kernel_initializer
             bias_initializer kernel_regularizer bias_regularizer trainable
             name weight_name bias_name st in
  is_validation_error (fst r) = true -> trace (snd r) = trace st.
Proof.
  run conv2d; cbn; congruence.
Qed.

Lemma upsample_validation_no_effect x size data_format interpolation name :
  let r := upsample fw x size data_format interpolation name st in
  is_validation_error (fst r) = true -> trace (snd r) = trace st.
Proof.
  run upsample; cbn; congruence.
Qed.

Lemma batch_normalization_validation_no_effect inputs axis momentum epsilon
    center scale beta_initializer gamma_initializer beta_regularizer
    gamma_regularizer moving_mean_initializer moving_variance_initializer
    trainable training name :
  let r := batch_normalization fw inputs axis momentum epsilon center scale
             beta_initializer gamma_initializer beta_regularizer
             gamma_regularizer moving_mean_initializer
             moving_variance_initializer trainable training name st in
  is_validation_error (fst r) = true -> trace (snd r) = trace st.
Proof.
  run batch_normalization; cbn; congruence.
Qed.

(** Where an AssertionError leaves dense: nothing built for an input of at
    most 2 axes, the flattening reshape built for more than 2. *)
Lemma dense_assertion_effect inputs units activation use_bias
    kernel_initializer bias_initializer kernel_regularizer bias_regularizer
    trainable name model_distribute :
  let r := dense fw inputs units activation use_bias kernel_initializer
             bias_initializer kernel_regularizer bias_regularizer trainable
             name model_distribute st in
  fst r = inl Py.AssertionError ->
  if Py.len (shape inputs) >? 2
  then exists last flat,
         Py.index (shape inputs) (-1) = Some last
         /\ trace (snd r) = trace st ++ [OpEvent (reshape inputs [-1; last]) flat]
  else trace (snd r) = trace st.
Proof.
  run dense; cbn [fst snd trace]; try congruence; intros _; eauto.
  destruct (Py.len (shape inputs) >? 2) eqn:Hgt; [zbool; lia | reflexivity].
Qed.

End Validation.

(** ** Argument validation *)

Section ValidationClaims.

Variable fw : Framework.
Variable st : State.

(** C2 (as amended).  When an argument validation of conv2d (kernel_size
    type, group counts, data-format string), of upsample (size,
    interpolation mode, data-format string) or of batch_normalization
    (axis range) fails, the AssertionError or ValueError is raised before
    any parameter variable or operator node has been created.  For dense
    the same holds on an input of at most 2 axes; on an input of more than
    2 axes an AssertionError (the model_distribute assertions) is raised
    after the reshape node that flattens the input has been built, and
    before any variable is created. *)
Theorem validation_failure_effects :
  (forall inputs filters kernel_size strides padding data_format
      dilation_rate groups activation use_bias kernel_initializer
      bias_initializer kernel_regularizer bias_regularizer trainable name
      weight_name bias_name,
      let r := conv2d fw inputs filters kernel_size strides padding
                 data_format dilation_rate groups activation use_bias
                 kernel_initializer bias_initializer kernel_regularizer
                 bias_regularizer trainable name weight_name bias_name st in
      is_validation_error (fst r) = true -> trace (snd r) = trace st)
  /\ (forall x size data_format interpolation name,
      let r := upsample fw x size data_format interpolation name st in
      is_validation_error (fst r) = true -> trace (snd r) = trace st)
  /\ (forall inputs axis momentum epsilon center scale beta_initializer
      gamma_initializer beta_regularizer gamma_regularizer
      moving_mean_initializer moving_variance_initializer trainable
      training name,
      let r := batch_normalization fw inputs axis momentum epsilon center
                 scale beta_initializer gamma_initializer beta_regularizer
                 gamma_regularizer moving_mean_initializer
                 moving_variance_initializer trainable training name st in
      is_validation_error (fst r) = true -> trace (snd r) = trace st)
  /\ (forall inputs units activation use_bias kernel_initializer
      bias_initializer kernel_regularizer bias_regularizer trainable name
      model_distribute,
      let r := dense fw inputs units activation use_bias kernel_initializer
                 bias_initializer kernel_regularizer bias_regularizer
                 trainable name model_distribute st in
      fst r = inl Py.AssertionError ->
      if Py.len (shape inputs) >? 2
      then exists last flat,
             Py.index (shape inputs) (-1) = Some last
             /\ trace (snd r)
                = trace st ++ [OpEvent (reshape inputs [-1; last]) flat]
      else trace (snd r) = trace st).
Proof.
  split; [| split; [| split]]; intros.
  - now apply conv2d_validation_no_effect.
  - now apply upsample_validation_no_effect.
  - now apply batch_normalization_validation_no_effect.
  - now apply dense_assertion_effect.
Qed.

(** C5 (as amended).  A conv2d call whose data_format is, in upper case,
    neither NCHW nor NHWC fails before any variable or operator node is
    created: with ValueError when the assertions that run first pass
    (kernel_size is an int, list or tuple; groups is an int with
    0 < groups <= filters and filters % groups == 0), with AssertionError
    otherwise.  For NCHW and NHWC no ValueError is raised. *)
Theorem conv2d_data_format inputs filters kernel_size strides padding
    data_format dilation_rate groups activation use_bias kernel_initializer
    bias_initializer kernel_regularizer bias_regularizer trainable name
    weight_name bias_name :
  let r := conv2d fw inputs filters kernel_size strides padding data_format
             dilation_rate groups activation use_bias kernel_initializer
             bias_initializer kernel_regularizer bias_regularizer trainable
             name weight_name bias_name st in
  (format_ok data_format = false ->
     fst r = inl (if preceding_checks kernel_size groups filters
                  then Py.ValueError "data_format must be in NCHW or NHWC"
                  else Py.AssertionError)
     /\ trace (snd r) = trace st)
  /\ (format_ok data_format = true -> is_ValueError (fst r) = false).
Proof.
  run_init. unfold format_ok, preceding_checks.
  run_go conv2d; cbn; split; intros H; try discriminate H; auto.
Qed.

(** C6.  conv2d fails, before any variable or operator node is created,
    unless the group-count constraints hold: groups is a positive int,
    groups <= filters, filters % groups == 0, for NCHW also
    groups <= inputs.shape[1] and inputs.shape[1] % groups == 0, and for
    NHWC groups == 1.  The failure is an AssertionError, or the IndexError
    of [inputs.shape[1]] when the input has no axis 1. *)
Theorem conv2d_group_constraints inputs filters kernel_size strides padding
    data_format dilation_rate groups activation use_bias kernel_initializer
    bias_initializer kernel_regularizer bias_regularizer trainable name
    weight_name bias_name :
  let r := conv2d fw inputs filters kernel_size strides padding data_format
             dilation_rate groups activation use_bias kernel_initializer
             bias_initializer kernel_regularizer bias_regularizer trainable
             name weight_name bias_name st in
  group_constraints inputs filters data_format groups = false ->
  (fst r = inl Py.AssertionError \/ fst r = inl Py.IndexError)
  /\ trace (snd r) = trace st.
Proof.
  run_init. unfold group_constraints.
  run_go conv2d; cbn; intros H; try discriminate H; auto.
Qed.

(** C7 (as amended).  upsample raises ValueError exactly when its size
    argument passes the assertions (an int, or a list or tuple of length 2)
    and the interpolation is neither nearest nor bilinear or the upper-cased
    data_format is neither NCHW nor NHWC; a size that fails its assertion
    gives AssertionError instead, whatever the other arguments; and a bad
    interpolation is rejected before any operator node is built. *)
Theorem upsample_ValueError x size data_format interpolation name :
  let r := upsample fw x size data_format interpolation name st in
  is_ValueError (fst r)
  = size_ok size
    && (negb (interpolation_ok interpolation) || negb (format_ok data_format))
  /\ (size_ok size = false -> fst r = inl Py.AssertionError)
  /\ (interpolation_ok interpolation = false -> trace (snd r) = trace st).
Proof.
  run_init. unfold upsample, size_ok, interpolation_ok, format_ok.
  destruct (interpolation =? "nearest")%string,
           (interpolation =? "bilinear")%string,
           (Py.upper data_format =? "NCHW")%string,
           (Py.upper data_format =? "NHWC")%string;
    cbn [negb andb orb];
    run_go upsample; try absurd_index; cbn;
    repeat split; intros H; try discriminate H; auto.
Qed.

End ValidationClaims.

Lemma append_inj (a b c : string) : (a ++ b)%string = (a ++ c)%string -> b = c.
Proof.
  induction a as [| ch a IH]; cbn; intros H; [assumption |].
  injection H as H. now apply IH.
Qed.

(** The log after a run, as the log before it followed by what was added. *)
Ltac trace_ext :=
  first [ symmetry; apply app_nil_r
        | rewrite <- ?app_assoc; cbn [app]; reflexivity ].

Section BatchNormalization.

Variable fw : Framework.
Variable st : State.

(** C8.  batch_normalization fails at once with AssertionError unless
    -len(inputs.shape) <= axis < len(inputs.shape).  Otherwise a negative
    axis is normalized by adding len(inputs.shape), the normalized axis
    indexes inputs.shape and is the op's axis attribute, and every
    parameter the call declares (beta, gamma, moving_mean,
    moving_variance) has shape [inputs.shape[axis]]. *)
Theorem batch_normalization_axis inputs axis momentum epsilon center scale
    beta_initializer gamma_initializer beta_regularizer gamma_regularizer
    moving_mean_initializer moving_variance_initializer trainable training
    name :
  let r := batch_normalization fw inputs axis momentum epsilon center scale
             beta_initializer gamma_initializer beta_regularizer
             gamma_regularizer moving_mean_initializer
             moving_variance_initializer trainable training name st in
  let nm := layer_name fw st "BatchNorm_" name in
  let ax := normalized_axis inputs axis in
  (axis_ok inputs axis = false -> r = (inl Py.AssertionError, st))
  /\ (axis_ok inputs axis = true ->
      exists dim new,
        0 <= ax < Py.len (shape inputs)
        /\ nth_error (shape inputs) (Z.to_nat ax) = Some dim
        /\ trace (snd r) = trace st ++ new
        /\ Forall (fun p => snd p = [dim]) (params new)
        /\ Forall (fun op => In ("axis"%string, AttrInt ax) (op_attrs op))
             (user_ops new)
        /\ (succeeds (fst r) = true ->
            params new
            = [ (if center then Some (nm ++ "-beta")%string else None, [dim]);
                (if scale then Some (nm ++ "-gamma")%string else None, [dim]);
                (Some (nm ++ "-moving_mean")%string, [dim]);
                (Some (nm ++ "-moving_variance")%string, [dim]) ]
            /\ List.length (user_ops new) = 1%nat)).
Proof.
  run_init. unfold axis_ok, normalized_axis, layer_name.
  run_go batch_normalization;
    (split; intros Hok; [try discriminate Hok; try reflexivity |]);
    try discriminate Hok.
  all: zbool.
  all: try match goal with
         | H : Py.index ?l ?i = None |- _ =>
             destruct (index_in_range l i) as [? ?]; [lia | congruence]
         end.
  all: match goal with
       | H : Py.index _ _ = Some ?d |- _ =>
           rewrite index_nonneg in H by lia; exists d
       end.
  all: eexists; split; [lia |]; split; [eassumption |];
    split; [trace_ext |]; cbn;
    repeat split; repeat constructor; cbn; auto 10; try discriminate.
  all: match goal with
       | |- In _ (op_attrs (if ?b then _ else _)) => destruct b
       end; cbn; auto 10.
Qed.

(** C10.  In every batch_normalization call the variables moving_mean
    and moving_variance are created with trainable=False whatever the
    trainable argument is; the training attribute given to the op is
    False whenever trainable is False or the global function is not
    trainable, and the training argument otherwise; and the op gets the
    extra outputs mean and inv_variance exactly when trainable and that
    training attribute are both True. *)
Theorem batch_normalization_training inputs axis momentum epsilon center
    scale beta_initializer gamma_initializer beta_regularizer
    gamma_regularizer moving_mean_initializer moving_variance_initializer
    trainable training name :
  let r := batch_normalization fw inputs axis momentum epsilon center scale
             beta_initializer gamma_initializer beta_regularizer
             gamma_regularizer moving_mean_initializer
             moving_variance_initializer trainable training name st in
  let nm := layer_name fw st "BatchNorm_" name in
  let effective := IsTrainable fw && trainable && training in
  exists new,
    trace (snd r) = trace st ++ new
    /\ (forall conf,
          In conf (variables new) ->
          var_name conf = (nm ++ "-moving_mean")%string
          \/ var_name conf = (nm ++ "-moving_variance")%string ->
          var_trainable conf = false)
    /\ (forall op,
          In op (user_ops new) ->
          In ("training"%string, AttrBool effective) (op_attrs op)
          /\ op_outputs op
             = if trainable && effective
               then ["y"; "mean"; "inv_variance"]%string
               else ["y"]%string)
    /\ (succeeds (fst r) = true ->
        map var_name (variables new)
        = (if center then [(nm ++ "-beta")%string] else [])
          ++ (if scale then [(nm ++ "-gamma")%string] else [])
          ++ [(nm ++ "-moving_mean")%string;
              (nm ++ "-moving_variance")%string]
        /\ List.length (user_ops new) = 1%nat).
Proof.
  run_init. unfold layer_name.
  run_go batch_normalization; eexists; (split; [trace_ext |]);
    cbn [variables user_ops flat_map variable_of user_op_of app succeeds];
    (split; [| split]).
  all: try (intros H; discriminate H).
  all: try (intros _; split; reflexivity).
  all: try (intros ? H; solve [destruct H]).
  all: try (intros op [<- | []];
            destruct (IsTrainable fw), trainable, training; cbn;
            split; auto 10).
  all: intros conf Hin Hname; cbn [In] in Hin;
    repeat match goal with
      | H : _ \/ _ |- _ => destruct H
      | H : False |- _ => destruct H
      end; subst; cbn [var_name var_trainable] in *; try reflexivity;
    match goal with
    | H : (_ ++ _)%string = (_ ++ _)%string |- _ =>
        apply append_inj in H; discriminate H
    end.
Qed.

End BatchNormalization.

(** ** conv2d and its padding argument *)

Section Padding.

Variable fw : Framework.
Variable st : State.

(** C1 (as amended).  conv2d does not validate padding: the string is
    handed unchanged to flow.nn.conv2d, and that call is made only after
    the weight variable has been created.  A run either creates nothing and
    ends the same way for every padding, or it creates the weight variable
    first and then either stops there, with the exception flow.nn.conv2d
    raised on the caller's padding, or goes on past flow.nn.conv2d called
    with the caller's padding.  Every exception conv2d raises itself
    (AssertionError, ValueError, IndexError) belongs to the first case:
    nothing has been created and the outcome is the same for every padding.
    Any other failure is an exception the framework raised on the last call
    made to it. *)
Theorem conv2d_padding_passed_through inputs filters kernel_size strides
    padding data_format dilation_rate groups activation use_bias
    kernel_initializer bias_initializer kernel_regularizer bias_regularizer
    trainable name weight_name bias_name :
  let r := conv2d fw inputs filters kernel_size strides padding data_format
             dilation_rate groups activation use_bias kernel_initializer
             bias_initializer kernel_regularizer bias_regularizer trainable
             name weight_name bias_name st in
  ((trace (snd r) = trace st
    /\ forall padding',
         conv2d fw inputs filters kernel_size strides padding' data_format
           dilation_rate groups activation use_bias kernel_initializer
           bias_initializer kernel_regularizer bias_regularizer trainable
           name weight_name bias_name st = r)
   \/ (exists conf weight rest,
         trace (snd r) = trace st ++ OpEvent (get_variable conf) weight :: rest
         /\ ((rest = []
              /\ exists g msg,
                   fst r = inl (Py.FrameworkError msg)
                   /\ run_op fw (trace (snd r))
                        (nn_conv2d inputs weight strides padding data_format
                           dilation_rate g name) = inl msg)
             \/ (is_own_error (fst r) = false
                 /\ exists g out rest',
                      rest = OpEvent (nn_conv2d inputs weight strides padding
                                        data_format dilation_rate g name) out
                             :: rest'))))
  /\ (is_own_error (fst r) = true ->
      trace (snd r) = trace st
      /\ forall padding',
           conv2d fw inputs filters kernel_size strides padding' data_format
             dilation_rate groups activation use_bias kernel_initializer
             bias_initializer kernel_regularizer bias_regularizer trainable
             name weight_name bias_name st = r)
  /\ (forall msg,
        fst r = inl (Py.FrameworkError msg) ->
        exists c, run_op fw (trace (snd r)) c = inl msg).
Proof.
  run_keep conv2d; (split; [| split]).
  all: try (intros H; discriminate H).
  all: try (intros msg H; discriminate H).
  all: try (intros msg [= <-]; eexists; eassumption).
  all: try (intros _; split; [reflexivity | intros; reflexivity]).
  all: first [ left; split; [reflexivity | intros; reflexivity]
             | right; do 3 eexists; split; [trace_ext |];
               first [ left; split; [reflexivity |];
                       do 2 eexists; split; [reflexivity | eassumption]
                     | right; split; [reflexivity |];
                       do 3 eexists; reflexivity ] ].
Qed.

End Padding.

(** ** How many operator nodes a call builds *)

Section OpNodes.

Variable fw : Framework.
Variable st : State.

Ltac count_nodes :=
  intros H; try discriminate H; rewrite ?count_app; cbn; lia.

(** C3 (as amended).  A call that returns has built, next to its variables
    and not counting what the activation callback builds: for dense the
    matmul, a bias add when use_bias, and two reshapes when the input has
    more than 2 axes (1 to 4 nodes); for conv2d the convolution and a bias
    add when use_bias (1 or 2); for layer_norm, layer_norm_grad and
    layer_norm_param_grad one user op; for batch_normalization one user op
    and a constant for each of beta and gamma that is switched off (1 to 3);
    for upsample one user op, and two transposes around it for NHWC. *)
Theorem op_nodes_built :
  (forall inputs units activation use_bias kernel_initializer bias_initializer
      kernel_regularizer bias_regularizer trainable name model_distribute,
      let r := dense fw inputs units activation use_bias kernel_initializer
                 bias_initializer kernel_regularizer bias_regularizer
                 trainable name model_distribute st in
      succeeds (fst r) = true ->
      count is_op_node (trace (snd r))
      = (count is_op_node (trace st) + 1 + (if use_bias then 1 else 0)
         + (if Py.len (shape inputs) >? 2 then 2 else 0))%nat)
  /\ (forall inputs filters kernel_size strides padding data_format
      dilation_rate groups activation use_bias kernel_initializer
      bias_initializer kernel_regularizer bias_regularizer trainable name
      weight_name bias_name,
      let r := conv2d fw inputs filters kernel_size strides padding
                 data_format dilation_rate groups activation use_bias
                 kernel_initializer bias_initializer kernel_regularizer
                 bias_regularizer trainable name weight_name bias_name st in
      succeeds (fst r) = true ->
      count is_op_node (trace (snd r))
      = (count is_op_node (trace st) + 1 + (if use_bias then 1 else 0))%nat)
  /\ (forall inputs center scale trainable begin_norm_axis begin_params_axis
      epsilon name,
      let r := layer_norm fw inputs center scale trainable begin_norm_axis
                 begin_params_axis epsilon name st in
      succeeds (fst r) = true ->
      count is_op_node (trace (snd r)) = (count is_op_node (trace st) + 1)%nat)
  /\ (forall dy x mean inv_variance begin_norm_axis name,
      let r := layer_norm_grad fw dy x mean inv_variance begin_norm_axis
                 name st in
      succeeds (fst r) = true ->
      count is_op_node (trace (snd r)) = (count is_op_node (trace st) + 1)%nat)
  /\ (forall dy norm gamma begin_params_axis name,
      let r := layer_norm_param_grad fw dy norm gamma begin_params_axis
                 name st in
      succeeds (fst r) = true ->
      count is_op_node (trace (snd r)) = (count is_op_node (trace st) + 1)%nat)
  /\ (forall inputs axis momentum epsilon center scale beta_initializer
      gamma_initializer beta_regularizer gamma_regularizer
      moving_mean_initializer moving_variance_initializer trainable training
      name,
      let r := batch_normalization fw inputs axis momentum epsilon center
                 scale beta_initializer gamma_initializer beta_regularizer
                 gamma_regularizer moving_mean_initializer
                 moving_variance_initializer trainable training name st in
      succeeds (fst r) = true ->
      count is_op_node (trace (snd r))
      = (count is_op_node (trace st) + 1 + (if center then 0 else 1)
         + (if scale then 0 else 1))%nat)
  /\ (forall x size data_format interpolation name,
      let r := upsample fw x size data_format interpolation name st in
      succeeds (fst r) = true ->
      count is_op_node (trace (snd r))
      = (count is_op_node (trace st)
         + (if (Py.upper data_format =? "NHWC")%string then 3 else 1))%nat).
Proof.
  repeat split; intro_args.
  - run dense; count_nodes.
  - run conv2d; count_nodes.
  - run layer_norm; count_nodes.
  - run layer_norm_grad; count_nodes.
  - run layer_norm_param_grad; count_nodes.
  - run batch_normalization; count_nodes.
  - run upsample; count_nodes.
Qed.

End OpNodes.

(** ** Where the activation callback is applied *)

Section Activation.

Variable fw : Framework.
Variable st : State.

Ltac read_log :=
  eexists; (split; [trace_ext |]);
  intros out H; try discriminate H; injection H as <-;
  cbn; repeat econstructor.

(** C9 (as amended).  In dense and conv2d the activation callback is called
    exactly when it is not None.  Without it the returned handle is the
    result of the core computation (matmul or convolution, then the bias add
    when use_bias), for dense on more than 2 axes reshaped back at the end.
    With it the callback is applied to the result of the core computation
    and, in conv2d and in dense on 2 axes, its result is returned; in dense
    on more than 2 axes the trailing reshape is applied to the callback's
    result, and the reshaped handle is returned. *)
Theorem activation_applied :
  (forall inputs filters kernel_size strides padding data_format
      dilation_rate groups activation use_bias kernel_initializer
      bias_initializer kernel_regularizer bias_regularizer trainable name
      weight_name bias_name,
      let r := conv2d fw inputs filters kernel_size strides padding
                 data_format dilation_rate groups activation use_bias
                 kernel_initializer bias_initializer kernel_regularizer
                 bias_regularizer trainable name weight_name bias_name st in
      let nm := layer_name fw st "Conv2D_" name in
      exists new,
        trace (snd r) = trace st ++ new
        /\ forall out,
             fst r = inr out ->
             match activation with
             | None => core use_bias new out
             | Some f =>
                 activated f (nm ++ "-activation")%string (core use_bias)
                   new out
             end)
  /\ (forall inputs units activation use_bias kernel_initializer
      bias_initializer kernel_regularizer bias_regularizer trainable name
      model_distribute,
      let r := dense fw inputs units activation use_bias kernel_initializer
                 bias_initializer kernel_regularizer bias_regularizer
                 trainable name model_distribute st in
      let nm := layer_name fw st "Dense_" name in
      let reshaped := Py.len (shape inputs) >? 2 in
      let out_shape := removelast (shape inputs) ++ [units] in
      exists new,
        trace (snd r) = trace st ++ new
        /\ forall out,
             fst r = inr out ->
             match activation with
             | None =>
                 with_trailing_reshape reshaped out_shape (core use_bias)
                   new out
             | Some f =>
                 with_trailing_reshape reshaped out_shape
                   (activated f (nm ++ "_activation")%string (core use_bias))
                   new out
             end).
Proof.
  split; intro_args.
  - run_init. unfold layer_name. run_go conv2d; read_log.
  - run_init. unfold layer_name. run_go dense; read_log.
Qed.

End Activation.

(** ** The exported surface *)



(** ** Python slicing *)

Lemma slice_from_suffix {A} (l : list A) (b : Z) :
  exists pre, l = pre ++ Py.slice_from l b.
Proof.
  unfold Py.slice_from. eexists. symmetry. apply firstn_skipn.
Qed.

Lemma slice_from_len {A} (l : list A) (b : Z) :
  Py.len (Py.slice_from l b) = slice_len (Py.len l) b.
Proof.
  unfold Py.slice_from, slice_len, Py.len. rewrite length_skipn.
  destruct (Z.ltb_spec b 0); lia.
Qed.

(** ** layer_norm and its gradients *)

Section LayerNorm.

Variable fw : Framework.
Variable st : State.

(** X1.  Every variable layer_norm creates carries the caller's trainable
    flag: the override to False when center and scale are both False never
    reaches a variable, because no variable is created then.  The variables
    are beta when center and gamma when scale, in that order, of the input's
    dtype, with broadcast distribution and no regularizer. *)
Theorem layer_norm_variables inputs center scale trainable begin_norm_axis
    begin_params_axis epsilon name :
  let r := layer_norm fw inputs center scale trainable begin_norm_axis
             begin_params_axis epsilon name st in
  let nm := layer_name fw st "LayerNorm_" name in
  exists new,
    trace (snd r) = trace st ++ new
    /\ Forall (fun conf =>
                 var_trainable conf = trainable
                 /\ var_dtype conf = dtype inputs
                 /\ var_distribute conf = Some BroadcastDistribute
                 /\ var_regularizer conf = None) (variables new)
    /\ (center = false -> scale = false -> variables new = [])
    /\ (succeeds (fst r) = true ->
        map var_name (variables new)
        = (if center then [(nm ++ "-beta")%string] else [])
          ++ (if scale then [(nm ++ "-gamma")%string] else [])).
Proof.
  run_init. unfold layer_name.
  run_go layer_norm; eexists; (split; [trace_ext |]); cbn;
    (split; [repeat constructor | split; [congruence |]]);
    intros H; try discriminate H; reflexivity.
Qed.

(** X2.  The shape of every variable layer_norm creates is
    inputs.shape[begin_params_axis:], a suffix of the input's shape: the
    last -begin_params_axis axes for a negative axis (all of them when the
    rank is smaller), everything from the axis on for a non-negative one
    (nothing when the axis is beyond the rank). *)
Theorem layer_norm_param_shape inputs center scale trainable begin_norm_axis
    begin_params_axis epsilon name :
  let r := layer_norm fw inputs center scale trainable begin_norm_axis
             begin_params_axis epsilon name st in
  exists new,
    trace (snd r) = trace st ++ new
    /\ Forall (fun conf =>
                 (exists pre, shape inputs = pre ++ var_shape conf)
                 /\ Py.len (var_shape conf)
                    = slice_len (Py.len (shape inputs)) begin_params_axis)
         (variables new).
Proof.
  run layer_norm; eexists; (split; [trace_ext |]);
    cbn [variables flat_map variable_of app];
    repeat constructor; cbn [var_shape];
    first [apply slice_from_suffix | apply slice_from_len].
Qed.

(** X3.  The op layer_norm builds consumes the input and then the handles of
    the variables the call created, in creation order, under the keys x,
    beta (when center) and gamma (when scale); it declares the outputs y,
    mean and inv_variance, and normalized exactly when scale is True; and
    the call returns the op's first output. *)
Theorem layer_norm_op inputs center scale trainable begin_norm_axis
    begin_params_axis epsilon name :
  let r := layer_norm fw inputs center scale trainable begin_norm_axis
             begin_params_axis epsilon name st in
  exists new,
    trace (snd r) = trace st ++ new
    /\ Forall (fun op =>
                 op_type_name op = "layer_norm"%string
                 /\ consumed op = inputs :: variable_outputs new
                 /\ map fst (op_inputs op)
                    = ["x"] ++ (if center then ["beta"] else [])
                      ++ (if scale then ["gamma"] else [])
                 /\ op_outputs op
                    = ["y"; "mean"; "inv_variance"]
                      ++ (if scale then ["normalized"] else []))
         (user_ops new)
    /\ (forall out, fst r = inr out -> returns_first_output new out).
Proof.
  run layer_norm; eexists; (split; [trace_ext |]); cbn;
    (split; [repeat constructor |]);
    intros out H; try discriminate H; injection H as <-.
  all: match goal with
       | H : Py.index ?l 0 = Some _ |- _ =>
           destruct l; [discriminate H | cbn in H; injection H as ->]
       end; reflexivity.
Qed.


(** X5.  layer_norm_grad builds one op of type layer_norm_grad over dy, x,
    mean and inv_variance with the single output dx, and always with
    epsilon 1e-5: the function has no epsilon argument, so an epsilon given
    to layer_norm is not carried to its gradient.  It creates no variable
    and returns the op's first output. *)
Theorem layer_norm_grad_op dy x mean inv_variance begin_norm_axis name :
  let r := layer_norm_grad fw dy x mean inv_variance begin_norm_axis name st in
  exists new,
    trace (snd r) = trace st ++ new
    /\ variables new = []
    /\ Forall (fun op =>
                 op_type_name op = "layer_norm_grad"%string
                 /\ consumed op = [dy; x; mean; inv_variance]
                 /\ op_outputs op = ["dx"]%string
                 /\ op_attrs op
                    = [("begin_norm_axis"%string, AttrInt begin_norm_axis);
                       ("epsilon"%string,
                        AttrFloat (Py.FloatLit "1e-5"))])
         (user_ops new)
    /\ (forall out, fst r = inr out -> returns_first_output new out).
Proof.
  run layer_norm_grad; eexists; (split; [trace_ext |]); cbn;
    (split; [reflexivity |]); (split; [repeat constructor |]);
    intros out H; try discriminate H; injection H as <-.
  all: match goal with
       | H : Py.index ?l 0 = Some _ |- _ =>
           destruct l; [discriminate H | cbn in H; injection H as ->]
       end; reflexivity.
Qed.

(** X6.  layer_norm_param_grad builds one op over dy, normalized and gamma
    with the outputs normalized_diff, beta_diff, gamma_diff and reduce_buf,
    and no variable.  If the framework rejects the op the call fails with
    the framework's exception and nothing is built.  Otherwise the op node
    is built, and the call returns exactly when the op came back with four
    outputs: it then returns the first three, in order, and drops the
    fourth (reduce_buf); with any other number of outputs the unpacking
    raises ValueError, after the node has been built. *)
Theorem layer_norm_param_grad_unpack dy norm gamma begin_params_axis name :
  let r := layer_norm_param_grad fw dy norm gamma begin_params_axis name st in
  exists new,
    trace (snd r) = trace st ++ new
    /\ variables new = []
    /\ exists op,
         consumed op = [dy; norm; gamma]
         /\ op_outputs op
            = ["normalized_diff"; "beta_diff"; "gamma_diff"; "reduce_buf"]%string
         /\ match run_user_op fw (trace st) op with
            | inl msg => fst r = inl (Py.FrameworkError msg) /\ new = []
            | inr outs =>
                new = [UserOpEvent op outs]
                /\ match outs with
                   | [a; b; c; d] => fst r = inr (a, b, c)
                   | _ => is_ValueError (fst r) = true
                   end
            end.
Proof.
  run_keep layer_norm_param_grad; eexists; (split; [trace_ext |]);
    (split; [reflexivity |]);
    match goal with
    | H : run_user_op _ _ ?op = _ |- _ => exists op; rewrite H
    end;
    (split; [reflexivity |]); (split; [reflexivity |]);
    split; reflexivity.
Qed.

End LayerNorm.

(** ** dense: what it accepts, declares and wires *)

Section Dense.

Variable fw : Framework.
Variable st : State.

(** X7.  dense returns only for an input of at least 2 axes and a
    model_distribute that is auto(), broadcast() or split(0), and with
    split(0) only for an input of exactly 2 axes: split(0) on a
    higher-rank input never returns. *)
Theorem dense_returns_only_if inputs units activation use_bias
    kernel_initializer bias_initializer kernel_regularizer bias_regularizer
    trainable name model_distribute :
  let r := dense fw inputs units activation use_bias kernel_initializer
             bias_initializer kernel_regularizer bias_regularizer trainable
             name model_distribute st in
  succeeds (fst r) = true -> dense_accepts inputs model_distribute = true.
Proof.
  run_init. unfold dense_accepts.
  run_go dense; intros H; try discriminate H; reflexivity.
Qed.

(** X8.  The variables of dense: the weight, then the bias when use_bias,
    named <prefix>-weight and <prefix>-bias, both with the caller's
    trainable flag and with model_distribute.  The weight has shape
    (units, k), the bias (units,), where k is axis 1 of the input as it
    enters the matmul: inputs.shape[1] for a 2-axis input, and for more axes
    axis 1 of the handle the flattening reshape to (-1, inputs.shape[-1])
    returned. *)
Theorem dense_variables inputs units activation use_bias kernel_initializer
    bias_initializer kernel_regularizer bias_regularizer trainable name
    model_distribute :
  let r := dense fw inputs units activation use_bias kernel_initializer
             bias_initializer kernel_regularizer bias_regularizer trainable
             name model_distribute st in
  let nm := layer_name fw st "Dense_" name in
  exists new,
    trace (snd r) = trace st ++ new
    /\ Forall (fun conf =>
                 var_trainable conf = trainable
                 /\ var_distribute conf = Some model_distribute)
         (variables new)
    /\ (succeeds (fst r) = true ->
        map var_name (variables new)
        = [(nm ++ "-weight")%string]
          ++ (if use_bias then [(nm ++ "-bias")%string] else [])
        /\ exists k,
             map var_shape (variables new)
             = [units; k] :: (if use_bias then [[units]] else [])
             /\ if Py.len (shape inputs) >? 2
                then exists last flat,
                       Py.index (shape inputs) (-1) = Some last
                       /\ hd_error new
                          = Some (OpEvent (reshape inputs [-1; last]) flat)
                       /\ Py.index (shape flat) 1 = Some k
                else Py.index (shape inputs) 1 = Some k).
Proof.
  run_init. unfold layer_name.
  run_go dense; eexists; (split; [trace_ext |]); cbn;
    (split; [repeat constructor |]);
    intros H; try discriminate H;
    (split; [reflexivity |]); eexists; (split; [reflexivity |]);
    first [assumption | do 2 eexists; repeat split; eassumption].
Qed.

(** X9.  The wiring of dense.  Every matmul it builds has transpose_b=True,
    takes as a the input as it enters the matmul (the input itself on 2
    axes, the flattened handle on more) and as b the handle of the first
    variable created (the weight) with model_distribute set on it.  Every
    bias add takes the result of a matmul and the handle of the second
    variable (the bias) with model_distribute set on it, and is given no
    data_format. *)
Theorem dense_wiring inputs units activation use_bias kernel_initializer
    bias_initializer kernel_regularizer bias_regularizer trainable name
    model_distribute :
  let r := dense fw inputs units activation use_bias kernel_initializer
             bias_initializer kernel_regularizer bias_regularizer trainable
             name model_distribute st in
  exists new,
    trace (snd r) = trace st ++ new
    /\ Forall (fun c =>
                 match c with
                 | matmul a b transpose_b _ =>
                     transpose_b = true
                     /\ (if Py.len (shape inputs) >? 2
                         then hd_error (outputs new) = Some a
                         else a = inputs)
                     /\ option_map (fun w => with_distribute w model_distribute)
                          (hd_error (variable_outputs new)) = Some b
                 | bias_add value bias data_format _ =>
                     data_format = None
                     /\ produced_by new is_matmul value
                     /\ option_map (fun w => with_distribute w model_distribute)
                          (nth_error (variable_outputs new) 1) = Some bias
                 | _ => True
                 end) (calls new).
Proof.
  run dense; eexists; (split; [trace_ext |]); cbn;
    repeat constructor;
    eexists; (split; [cbn; eauto 10 | reflexivity]).
Qed.

End Dense.

(** ** conv2d: what it declares and wires *)

Section Conv2d.

Variable fw : Framework.
Variable st : State.

(** X10.  The variables of conv2d: the weight, then the bias when use_bias,
    with the caller's trainable flag, the input's dtype and no distribute
    argument.  A weight_name or bias_name is used when it is a non-empty
    string; None and the empty string both fall back to <prefix>-weight and
    <prefix>-bias.  The bias has shape (filters,).  The weight has shape
    (filters, C // groups) + kernel_size for NCHW, with C = inputs.shape[1]
    and the whole kernel_size tuple appended, and
    (filters, kernel_size[0], kernel_size[1], C) for NHWC, with
    C = inputs.shape[3]; an int kernel_size k stands for (k, k). *)
Theorem conv2d_variables inputs filters kernel_size strides padding
    data_format dilation_rate groups activation use_bias kernel_initializer
    bias_initializer kernel_regularizer bias_regularizer trainable name
    weight_name bias_name :
  let r := conv2d fw inputs filters kernel_size strides padding data_format
             dilation_rate groups activation use_bias kernel_initializer
             bias_initializer kernel_regularizer bias_regularizer trainable
             name weight_name bias_name st in
  let nm := layer_name fw st "Conv2D_" name in
  exists new,
    trace (snd r) = trace st ++ new
    /\ Forall (fun conf =>
                 var_trainable conf = trainable
                 /\ var_dtype conf = dtype inputs
                 /\ var_distribute conf = None) (variables new)
    /\ (succeeds (fst r) = true ->
        map var_name (variables new)
        = [match weight_name with
           | Some (String c rest) => String c rest
           | _ => (nm ++ "-weight")%string
           end]
          ++ (if use_bias
              then [match bias_name with
                    | Some (String c rest) => String c rest
                    | _ => (nm ++ "-bias")%string
                    end]
              else [])
        /\ exists g ks weight_shape,
             groups = Py.PInt g
             /\ kernel_tuple kernel_size = Some ks
             /\ map var_shape (variables new)
                = weight_shape :: (if use_bias then [[filters]] else [])
             /\ if (Py.upper data_format =? "NCHW")%string
                then exists C,
                       Py.index (shape inputs) 1 = Some C
                       /\ weight_shape = [filters; C / g] ++ ks
                else exists C k0 k1,
                       Py.index (shape inputs) 3 = Some C
                       /\ Py.index ks 0 = Some k0
                       /\ Py.index ks 1 = Some k1
                       /\ weight_shape = [filters; k0; k1; C]).
Proof.
  run_init. unfold layer_name.
  run_go conv2d; eexists; (split; [trace_ext |]); cbn;
    (split; [repeat constructor |]);
    intros H; try discriminate H;
    (split; [destruct weight_name as [[|] |], bias_name as [[|] |];
             reflexivity |]);
    zbool; subst; rewrite ?Z.div_1_r;
    do 3 eexists; (split; [reflexivity |]); (split; [reflexivity |]);
    (split; [reflexivity |]);
    eauto 10.
Qed.

(** X11.  The wiring of conv2d.  The convolution takes the input and the
    handle of the first variable (the weight), and is given strides,
    padding, data_format and dilation_rate as the caller wrote them
    (data_format is upper-cased only for the validation) and the caller's
    name argument, not the generated prefix.  Every bias add takes the
    result of the convolution, the handle of the second variable (the bias)
    and the same data_format. *)
Theorem conv2d_wiring inputs filters kernel_size strides padding data_format
    dilation_rate groups activation use_bias kernel_initializer
    bias_initializer kernel_regularizer bias_regularizer trainable name
    weight_name bias_name :
  let r := conv2d fw inputs filters kernel_size strides padding data_format
             dilation_rate groups activation use_bias kernel_initializer
             bias_initializer kernel_regularizer bias_regularizer trainable
             name weight_name bias_name st in
  exists new,
    trace (snd r) = trace st ++ new
    /\ Forall (fun c =>
                 match c with
                 | nn_conv2d input filters' strides' padding' data_format'
                     dilations g name' =>
                     input = inputs
                     /\ hd_error (variable_outputs new) = Some filters'
                     /\ strides' = strides /\ padding' = padding
                     /\ data_format' = data_format
                     /\ dilations = dilation_rate
                     /\ groups = Py.PInt g /\ name' = name
                 | bias_add value bias data_format' _ =>
                     data_format' = Some data_format
                     /\ produced_by new is_convolution value
                     /\ nth_error (variable_outputs new) 1 = Some bias
                 | _ => True
                 end) (calls new).
Proof.
  run conv2d; eexists; (split; [trace_ext |]); cbn;
    repeat constructor;
    eexists; (split; [cbn; eauto 10 | reflexivity]).
Qed.

End Conv2d.

(** ** batch_normalization: parameters and wiring *)

Section BatchNormalizationParameters.

Variable fw : Framework.
Variable st : State.

(** X12.  No parameter of batch_normalization is float16: every variable
    and stand-in constant has the input's dtype, except that a float16 input
    gets float32 parameters. *)
Theorem batch_normalization_dtype inputs axis momentum epsilon center scale
    beta_initializer gamma_initializer beta_regularizer gamma_regularizer
    moving_mean_initializer moving_variance_initializer trainable training
    name :
  let r := batch_normalization fw inputs axis momentum epsilon center scale
             beta_initializer gamma_initializer beta_regularizer
             gamma_regularizer moving_mean_initializer
             moving_variance_initializer trainable training name st in
  exists new,
    trace (snd r) = trace st ++ new
    /\ Forall (fun dt =>
                 dt <> float16
                 /\ dt = if dtype_eqb (dtype inputs) float16
                         then float32
                         else dtype inputs) (param_dtypes new).
Proof.
  run batch_normalization; eexists; (split; [trace_ext |]);
    cbn [param_dtypes flat_map param_dtype_of app var_dtype];
    repeat constructor; destruct (dtype inputs); cbn; congruence.
Qed.

(** X13.  What the parameters of batch_normalization start from, in the
    order beta, gamma, moving_mean, moving_variance: beta and moving_mean
    from zeros and gamma and moving_variance from ones unless the caller
    gives an initializer, and, when center or scale is False, the constant 0
    in place of beta and the constant 1 in place of gamma, their
    initializers being ignored. *)
Theorem batch_normalization_initial_values inputs axis momentum epsilon
    center scale beta_initializer gamma_initializer beta_regularizer
    gamma_regularizer moving_mean_initializer moving_variance_initializer
    trainable training name :
  let r := batch_normalization fw inputs axis momentum epsilon center scale
             beta_initializer gamma_initializer beta_regularizer
             gamma_regularizer moving_mean_initializer
             moving_variance_initializer trainable training name st in
  exists new,
    trace (snd r) = trace st ++ new
    /\ (succeeds (fst r) = true ->
        initial_values new
        = [ if center
            then inl (or_default beta_initializer zeros_initializer)
            else inr 0;
            if scale
            then inl (or_default gamma_initializer ones_initializer)
            else inr 1;
            inl (or_default moving_mean_initializer zeros_initializer);
            inl (or_default moving_variance_initializer ones_initializer) ]).
Proof.
  run batch_normalization; eexists; (split; [trace_ext |]);
    intros H; try discriminate H; reflexivity.
Qed.

(** X14.  The wiring of batch_normalization.  A call that returns has made
    four declarations (beta, gamma, moving_mean, moving_variance, in that
    order) and then built one normalization op, which consumes the input
    and the four handles under the keys x, moving_mean, moving_variance,
    gamma, beta, and is given epsilon and momentum unchanged; the call
    returns the op's first output. *)
Theorem batch_normalization_wiring inputs axis momentum epsilon center scale
    beta_initializer gamma_initializer beta_regularizer gamma_regularizer
    moving_mean_initializer moving_variance_initializer trainable training
    name :
  let r := batch_normalization fw inputs axis momentum epsilon center scale
             beta_initializer gamma_initializer beta_regularizer
             gamma_regularizer moving_mean_initializer
             moving_variance_initializer trainable training name st in
  exists new,
    trace (snd r) = trace st ++ new
    /\ forall out,
         fst r = inr out ->
         returns_first_output new out
         /\ exists beta gamma moving_mean moving_variance,
              outputs new = [beta; gamma; moving_mean; moving_variance]
              /\ Forall (fun op =>
                           op_type_name op = "normalization"%string
                           /\ op_inputs op
                              = [ ("x"%string, [inputs]);
                                  ("moving_mean"%string, [moving_mean]);
                                  ("moving_variance"%string, [moving_variance]);
                                  ("gamma"%string, [gamma]);
                                  ("beta"%string, [beta]) ]
                           /\ In ("epsilon"%string, AttrFloat epsilon)
                                (op_attrs op)
                           /\ In ("momentum"%string, AttrFloat momentum)
                                (op_attrs op)) (user_ops new).
Proof.
  run batch_normalization; eexists; (split; [trace_ext |]);
    intros out H; try discriminate H; injection H as <-.
  all: match goal with
       | H : Py.index ?l _ = Some _ |- returns_first_output _ _ /\ _ =>
           destruct l; [discriminate H | cbn in H; injection H as ->]
       end.
  all: repeat match goal with
         | |- context [UserOpEvent (if ?b then _ else _) _] => destruct b
         end.
  all: split; [cbn; reflexivity |]; do 4 eexists; split; [reflexivity |].
  all: cbn [user_ops flat_map user_op_of app];
    constructor; [| constructor];
    split; [reflexivity | split; [reflexivity | split; cbn; auto 10]].
Qed.

End BatchNormalizationParameters.

(** ** upsample: layout and scales *)

Section Upsample.

Variable fw : Framework.
Variable st : State.

(** X15.  A call of upsample that returns has built, for NCHW, one upsample
    op on the input and returns its first output; for NHWC it has
    transposed the input with (0, 3, 1, 2), built the op on the result, and
    returns the transpose with (0, 2, 3, 1) of the op's first output.  The
    two permutations undo each other, so the result is back in the caller's
    layout.  The op is always told channels_first, the interpolation as
    given, and the height and width scale size stands for: both equal to an
    int size, and the two elements of a list or tuple. *)
Theorem upsample_layout x size data_format interpolation name :
  let r := upsample fw x size data_format interpolation name st in
  (forall a b c d,
      permute [0; 2; 3; 1] (permute [0; 3; 1; 2] [a; b; c; d]) = [a; b; c; d])
  /\ exists new,
       trace (snd r) = trace st ++ new
       /\ forall out,
            fst r = inr out ->
            (exists h w,
                scales_of size = Some (h, w)
                /\ Forall (fun op =>
                             op_type_name op = "upsample"%string
                             /\ op_attrs op
                                = [ ("height_scale"%string,
                                     AttrFloat (Py.FloatOfInt h));
                                    ("width_scale"%string,
                                     AttrFloat (Py.FloatOfInt w));
                                    ("data_format"%string,
                                     AttrStr "channels_first");
                                    ("interpolation"%string,
                                     AttrStr interpolation) ])
                     (user_ops new))
            /\ if (Py.upper data_format =? "NHWC")%string
               then exists x' op y rest,
                      new = [ OpEvent (transpose x [0; 3; 1; 2]) x';
                              UserOpEvent op (y :: rest);
                              OpEvent (transpose y [0; 2; 3; 1]) out ]
                      /\ consumed op = [x']
               else exists op rest,
                      new = [UserOpEvent op (out :: rest)]
                      /\ consumed op = [x].
Proof.
  run upsample; (split; [reflexivity |]); eexists; (split; [trace_ext |]);
    intros out H; try discriminate H; injection H as <-.
  all: repeat match goal with
         | H : (Py.len ?l =? 2) = true |- _ =>
             apply len_two in H; destruct H as (? & ? & ->)
         | H : Py.index (_ :: _) _ = Some _ |- _ =>
             cbn in H; injection H as <-
         | H : Py.index ?l 0 = Some _ |- _ =>
             destruct l; [discriminate H | cbn in H; injection H as ->]
         end.
  all: split; [do 2 eexists; split; [reflexivity | repeat constructor] |].
  all: repeat eexists.
Qed.

End Upsample.

(** ** Names drawn from the id generator *)

Section UniqueIds.

Variable fw : Framework.
Variable st : State.

Ltac count_ids := cbn [ids_drawn]; lia.

(** X16.  A call draws at most one id from the unique-name generator, and
    none when the caller gives a name.  conv2d, upsample and the three
    layer_norm functions draw it first thing, whatever happens afterwards;
    dense and batch_normalization draw it only after their first assertion
    (rank at least 2, axis in range) has passed. *)
Theorem unique_ids_drawn :
  (forall inputs units activation use_bias kernel_initializer bias_initializer
      kernel_regularizer bias_regularizer trainable name model_distribute,
      let r := dense fw inputs units activation use_bias kernel_initializer
                 bias_initializer kernel_regularizer bias_regularizer
                 trainable name model_distribute st in
      next_uid (snd r)
      = (next_uid st
         + if Py.len (shape inputs) >=? 2 then ids_drawn name else 0)%nat)
  /\ (forall inputs filters kernel_size strides padding data_format
      dilation_rate groups activation use_bias kernel_initializer
      bias_initializer kernel_regularizer bias_regularizer trainable name
      weight_name bias_name,
      let r := conv2d fw inputs filters kernel_size strides padding
                 data_format dilation_rate groups activation use_bias
                 kernel_initializer bias_initializer kernel_regularizer
                 bias_regularizer trainable name weight_name bias_name st in
      next_uid (snd r) = (next_uid st + ids_drawn name)%nat)
  /\ (forall inputs center scale trainable begin_norm_axis begin_params_axis
      epsilon name,
      let r := layer_norm fw inputs center scale trainable begin_norm_axis
                 begin_params_axis epsilon name st in
      next_uid (snd r) = (next_uid st + ids_drawn name)%nat)
  /\ (forall dy x mean inv_variance begin_norm_axis name,
      let r := layer_norm_grad fw dy x mean inv_variance begin_norm_axis
                 name st in
      next_uid (snd r) = (next_uid st + ids_drawn name)%nat)
  /\ (forall dy norm gamma begin_params_axis name,
      let r := layer_norm_param_grad fw dy norm gamma begin_params_axis
                 name st in
      next_uid (snd r) = (next_uid st + ids_drawn name)%nat)
  /\ (forall inputs axis momentum epsilon center scale beta_initializer
      gamma_initializer beta_regularizer gamma_regularizer
      moving_mean_initializer moving_variance_initializer trainable training
      name,
      let r := batch_normalization fw inputs axis momentum epsilon center
                 scale beta_initializer gamma_initializer beta_regularizer
                 gamma_regularizer moving_mean_initializer
                 moving_variance_initializer trainable training name st in
      next_uid (snd r)
      = (next_uid st + if axis_ok inputs axis then ids_drawn name else 0)%nat)
  /\ (forall x size data_format interpolation name,
      let r := upsample fw x size data_format interpolation name st in
      next_uid (snd r) = (next_uid st + ids_drawn name)%nat).
Proof.
  repeat split; intro_args.
  - run dense; count_ids.
  - run conv2d; count_ids.
  - run layer_norm; count_ids.
  - run layer_norm_grad; count_ids.
  - run layer_norm_param_grad; count_ids.
  - run_init. unfold axis_ok. run_go batch_normalization; try count_ids.
    all: exfalso; zbool;
      match goal with
      | H : Py.index ?l ?i = None |- _ =>
          destruct (index_in_range l i) as [? ?]; [lia | congruence]
      end.
  - run upsample; count_ids.
Qed.

End UniqueIds.

(** ** Initializers and regularizers *)

Section Initializers.

Variable fw : Framework.
Variable st : State.

(** X17.  In dense and conv2d the weight takes kernel_initializer and
    kernel_regularizer and the bias takes bias_initializer and
    bias_regularizer; an initializer left at None is the constant 0, for the
    weight as well as for the bias.  In layer_norm beta starts from the
    constant 0.0 and gamma from the constant 1.0. *)
Theorem default_initializers :
  (forall inputs units activation use_bias kernel_initializer bias_initializer
      kernel_regularizer bias_regularizer trainable name model_distribute,
      let r := dense fw inputs units activation use_bias kernel_initializer
                 bias_initializer kernel_regularizer bias_regularizer
                 trainable name model_distribute st in
      exists new,
        trace (snd r) = trace st ++ new
        /\ (succeeds (fst r) = true ->
            map (fun conf => (var_initializer conf, var_regularizer conf))
              (variables new)
            = (or_default kernel_initializer
                 (constant_initializer (Py.NumInt 0)), kernel_regularizer)
              :: (if use_bias
                  then [(or_default bias_initializer
                           (constant_initializer (Py.NumInt 0)),
                         bias_regularizer)]
                  else [])))
  /\ (forall inputs filters kernel_size strides padding data_format
      dilation_rate groups activation use_bias kernel_initializer
      bias_initializer kernel_regularizer bias_regularizer trainable name
      weight_name bias_name,
      let r := conv2d fw inputs filters kernel_size strides padding
                 data_format dilation_rate groups activation use_bias
                 kernel_initializer bias_initializer kernel_regularizer
                 bias_regularizer trainable name weight_name bias_name st in
      exists new,
        trace (snd r) = trace st ++ new
        /\ (succeeds (fst r) = true ->
            map (fun conf => (var_initializer conf, var_regularizer conf))
              (variables new)
            = (or_default kernel_initializer
                 (constant_initializer (Py.NumInt 0)), kernel_regularizer)
              :: (if use_bias
                  then [(or_default bias_initializer
                           (constant_initializer (Py.NumInt 0)),
                         bias_regularizer)]
                  else [])))
  /\ (forall inputs center scale trainable begin_norm_axis begin_params_axis
      epsilon name,
      let r := layer_norm fw inputs center scale trainable begin_norm_axis
                 begin_params_axis epsilon name st in
      exists new,
        trace (snd r) = trace st ++ new
        /\ (succeeds (fst r) = true ->
            map var_initializer (variables new)
            = (if center
               then [constant_initializer (Py.NumFloat (Py.FloatLit "0.0"))]
               else [])
              ++ (if scale
                  then [constant_initializer
                          (Py.NumFloat (Py.FloatLit "1.0"))]
                  else []))).
Proof.
  split; [| split]; intro_args.
  - run dense; eexists; (split; [trace_ext |]);
      intros H; try discriminate H; reflexivity.
  - run conv2d; eexists; (split; [trace_ext |]);
      intros H; try discriminate H; reflexivity.
  - run layer_norm; eexists; (split; [trace_ext |]);
      intros H; try discriminate H; reflexivity.
Qed.

End Initializers.

(** ** Concrete runs on the demo framework *)

Module Runs.

Import Demo.

(** C1, counterexample.  Padding FULL is neither VALID nor SAME, yet the
    call raises no error of its own: the weight variable is created, and the
    error is the one nn.conv2d raises afterwards. *)
Lemma conv2d_bad_padding_counterexample :
  fst (conv 8 "FULL" "NCHW" 1 None)
  = inl (Py.FrameworkError "padding must be VALID or SAME")
  /\ is_validation_error (fst (conv 8 "FULL" "NCHW" 1 None)) = false
  /\ count is_variable (trace (snd (conv 8 "FULL" "NCHW" 1 None))) = 1%nat.
Proof. vm_compute. repeat split. Qed.

(** C2, counterexample.  dense on a 3-axis input with a model_distribute
    that is none of auto(), broadcast(), split(0): the assertion fails after
    one operator node, the flattening reshape, has been built. *)
Lemma dense_model_distribute_counterexample :
  fst (fc x3 None (ForeignDistribute 0)) = inl Py.AssertionError
  /\ count is_op_node (trace (snd (fc x3 None (ForeignDistribute 0)))) = 1%nat
  /\ count is_variable (trace (snd (fc x3 None (ForeignDistribute 0)))) = 0%nat.
Proof. vm_compute. repeat split. Qed.

(** C3, counterexample.  dense on a 3-axis input with bias and activation
    builds four operator nodes of its own (reshape, matmul, bias add,
    reshape) and calls the activation once. *)
Lemma dense_builds_four_nodes :
  succeeds (fst (fc x3 (Some relu) BroadcastDistribute)) = true
  /\ count is_op_node (trace (snd (fc x3 (Some relu) BroadcastDistribute)))
     = 4%nat
  /\ count is_activation (trace (snd (fc x3 (Some relu) BroadcastDistribute)))
     = 1%nat.
Proof. vm_compute. repeat split. Qed.


(** C5, counterexample.  With a bad data_format and filters=3, groups=2 the
    call raises AssertionError (3 % 2 != 0), not ValueError. *)
Lemma conv2d_bad_format_assertion :
  format_ok "NCDHW" = false
  /\ fst (conv 3 "VALID" "NCDHW" 2 None) = inl Py.AssertionError
  /\ is_ValueError (fst (conv 3 "VALID" "NCDHW" 2 None)) = false.
Proof. vm_compute. repeat split. Qed.

(** C7, counterexample.  With size=(2, 2, 2) and interpolation cubic the
    interpolation is bad, yet the call raises AssertionError, from the size
    assertion that runs first, and not ValueError. *)
Lemma upsample_bad_size_assertion :
  interpolation_ok "cubic" = false
  /\ fst (upsample demo_fw image (Py.PTuple [2; 2; 2]) "NCHW" "cubic" None init)
     = inl Py.AssertionError
  /\ is_ValueError
       (fst (upsample demo_fw image (Py.PTuple [2; 2; 2]) "NCHW" "cubic" None
               init))
     = false.
Proof. vm_compute. repeat split. Qed.

(** C9, counterexample.  dense on a 3-axis input with an activation returns
    the handle of the trailing reshape, whose input is the activation's
    result: the returned handle is not the result of the activation call. *)
Lemma dense_activation_before_reshape :
  let r := fc x3 (Some relu) BroadcastDistribute in
  let activated_handle := mkBlob "relu:5" [20; 10] float32 None in
  let returned := mkBlob "reshape:6" [4; 5; 10] float32 None in
  fst r = inr returned
  /\ option_map snd (split_last (trace (snd r)))
     = Some (OpEvent (reshape activated_handle [4; 5; 10]) returned)
  /\ ~ activated relu "Dense_0_activation" (fun _ _ => True) (trace (snd r))
         returned.
Proof.
  vm_compute. repeat split. intros [_ [h [H _]]]. discriminate H.
Qed.

Lemma validation_failure_effects_witness :
  trace (snd (conv 8 "VALID" "NCDHW" 1 None)) = trace init
  /\ trace (snd (upsample demo_fw image (Py.PInt 2) "NCHW" "cubic" None init))
     = trace init
  /\ trace (snd (bn 4 true true)) = trace init
  /\ (if Py.len (shape x3) >? 2
      then exists last flat,
             Py.index (shape x3) (-1) = Some last
             /\ trace (snd (fc x3 None (ForeignDistribute 0)))
                = trace init ++ [OpEvent (reshape x3 [-1; last]) flat]
      else trace (snd (fc x3 None (ForeignDistribute 0))) = trace init).
Proof.
  destruct (validation_failure_effects demo_fw init) as (Hc & Hu & Hb & Hd).
  split; [| split; [| split]].
  - apply Hc. reflexivity.
  - apply Hu. reflexivity.
  - apply Hb. reflexivity.
  - apply Hd. reflexivity.
Defined.

Lemma op_nodes_built_witness :
  count is_op_node (trace (snd (fc x3 (Some relu) BroadcastDistribute)))
  = (count is_op_node (trace init) + 1 + 1 + 2)%nat
  /\ count is_op_node (trace (snd (conv 8 "SAME" "NCHW" 1 (Some relu))))
     = (count is_op_node (trace init) + 1 + 1)%nat
  /\ count is_op_node (trace (snd (bn 1 false true)))
     = (count is_op_node (trace init) + 1 + 1 + 0)%nat
  /\ count is_op_node
       (trace (snd (upsample demo_fw image (Py.PInt 2) "nhwc" "nearest" None
                      init)))
     = (count is_op_node (trace init) + 3)%nat.
Proof.
  destruct (op_nodes_built demo_fw init)
    as (Hd & Hc & _ & _ & _ & Hb & Hu).
  split; [| split; [| split]].
  - apply (Hd x3 10 (Some relu) true). reflexivity.
  - apply (Hc image 8 (Py.PInt 3) (Py.PInt 1) "SAME"%string "NCHW"%string
             (Py.PInt 1) (Py.PInt 1) (Some relu) true).
    reflexivity.
  - apply (Hb image 1 mom eps false true). reflexivity.
  - apply (Hu image (Py.PInt 2) "nhwc"%string). reflexivity.
Defined.


Lemma conv2d_padding_passed_through_witness :
  (trace (snd (conv 8 "FULL" "NCDHW" 1 None)) = trace init
   /\ conv 8 "SAME" "NCDHW" 1 None = conv 8 "FULL" "NCDHW" 1 None)
  /\ exists c,
       Demo.run_op (trace (snd (conv 8 "FULL" "NCHW" 1 None))) c
       = inl "padding must be VALID or SAME"%string.
Proof.
  split.
  - destruct (conv2d_padding_passed_through demo_fw init image 8 (Py.PInt 3)
                (Py.PInt 1) "FULL" "NCDHW" (Py.PInt 1) (Py.PInt 1) None true
                None None None None true None None None)
      as (_ & Hown & _).
    destruct (Hown eq_refl) as [Hlog Hsame].
    split; [exact Hlog | exact (Hsame "SAME"%string)].
  - destruct (conv2d_padding_passed_through demo_fw init image 8 (Py.PInt 3)
                (Py.PInt 1) "FULL" "NCHW" (Py.PInt 1) (Py.PInt 1) None true
                None None None None true None None None)
      as (_ & _ & Hfw).
    apply (Hfw "padding must be VALID or SAME"%string). reflexivity.
Defined.

Lemma conv2d_data_format_witness :
  (fst (conv 8 "VALID" "NCDHW" 1 None)
   = inl (Py.ValueError "data_format must be in NCHW or NHWC")
   /\ trace (snd (conv 8 "VALID" "NCDHW" 1 None)) = trace init)
  /\ is_ValueError (fst (conv 8 "VALID" "nhwc" 1 None)) = false.
Proof.
  split.
  - apply (conv2d_data_format demo_fw init image 8 (Py.PInt 3) (Py.PInt 1)
             "VALID" "NCDHW" (Py.PInt 1) (Py.PInt 1) None true None None None
             None true None None None).
    reflexivity.
  - apply (conv2d_data_format demo_fw init image 8 (Py.PInt 3) (Py.PInt 1)
             "VALID" "nhwc" (Py.PInt 1) (Py.PInt 1) None true None None None
             None true None None None).
    reflexivity.
Defined.

Lemma conv2d_group_constraints_witness :
  group_constraints image 8 "NCHW" (Py.PInt 2) = false
  /\ (fst (conv 8 "VALID" "NCHW" 2 None) = inl Py.AssertionError
      \/ fst (conv 8 "VALID" "NCHW" 2 None) = inl Py.IndexError)
  /\ trace (snd (conv 8 "VALID" "NCHW" 2 None)) = trace init.
Proof.
  split; [reflexivity |].
  apply (conv2d_group_constraints demo_fw init image 8 (Py.PInt 3) (Py.PInt 1)
           "VALID" "NCHW" (Py.PInt 1) (Py.PInt 2) None true None None None
           None true None None None).
  reflexivity.
Defined.

Lemma upsample_ValueError_witness :
  is_ValueError
    (fst (upsample demo_fw image (Py.PTuple [2; 2]) "NCHW" "cubic" None init))
  = true
  /\ fst (upsample demo_fw image (Py.PTuple [2; 2; 2]) "NCHW" "cubic" None init)
     = inl Py.AssertionError
  /\ trace
       (snd (upsample demo_fw image (Py.PTuple [2; 2]) "NCHW" "cubic" None init))
     = trace init.
Proof.
  split; [| split].
  - apply (upsample_ValueError demo_fw init image (Py.PTuple [2; 2]) "NCHW"
             "cubic" None).
  - apply (upsample_ValueError demo_fw init image (Py.PTuple [2; 2; 2]) "NCHW"
             "cubic" None).
    reflexivity.
  - apply (upsample_ValueError demo_fw init image (Py.PTuple [2; 2]) "NCHW"
             "cubic" None).
    reflexivity.
Defined.

Lemma batch_normalization_axis_witness :
  bn 4 true true = (inl Py.AssertionError, init)
  /\ exists dim new,
       nth_error (shape image) 1 = Some dim
       /\ trace (snd (bn (-3) true true)) = new
       /\ params new
          = [ (Some "BatchNorm_0-beta"%string, [dim]);
              (Some "BatchNorm_0-gamma"%string, [dim]);
              (Some "BatchNorm_0-moving_mean"%string, [dim]);
              (Some "BatchNorm_0-moving_variance"%string, [dim]) ].
Proof.
  split.
  - apply (batch_normalization_axis demo_fw init image 4 mom eps true true
             None None None None None None true true None).
    reflexivity.
  - destruct (batch_normalization_axis demo_fw init image (-3) mom eps true
                true None None None None None None true true None)
      as [_ Hok].
    destruct (Hok eq_refl) as (dim & new & _ & Hdim & Hlog & _ & _ & Hrun).
    exists dim, new. split; [exact Hdim |]. split; [exact Hlog |].
    apply Hrun. reflexivity.
Defined.

Lemma activation_applied_witness :
  activated relu "Conv2D_0-activation" (core true)
    (trace (snd (conv 8 "SAME" "NCHW" 1 (Some relu))))
    (mkBlob "relu:4" [4; 8; 8; 8] float32 None)
  /\ with_trailing_reshape true [4; 5; 10]
       (activated relu "Dense_0_activation" (core true))
       (trace (snd (fc x3 (Some relu) BroadcastDistribute)))
       (mkBlob "reshape:6" [4; 5; 10] float32 None).
Proof.
  destruct (activation_applied demo_fw init) as (Hconv & Hdense).
  unfold conv, fc. split.
  - destruct (Hconv image 8 (Py.PInt 3) (Py.PInt 1) "SAME"%string
                "NCHW"%string (Py.PInt 1) (Py.PInt 1) (Some relu) true None
                None None None true None None None)
      as (new & Hlog & Hout).
    cbn [trace init app] in Hlog. rewrite Hlog. apply Hout. reflexivity.
  - destruct (Hdense x3 10 (Some relu) true None None None None true None
                BroadcastDistribute)
      as (new & Hlog & Hout).
    cbn [trace init app] in Hlog. rewrite Hlog. apply Hout. reflexivity.
Defined.

Lemma batch_normalization_training_witness :
  exists new,
    trace (snd (bn (-3) true false)) = new
    /\ map var_name (variables new)
       = ["BatchNorm_0-beta"; "BatchNorm_0-gamma"; "BatchNorm_0-moving_mean";
          "BatchNorm_0-moving_variance"]%string
    /\ Forall (fun conf =>
                 var_name conf = "BatchNorm_0-moving_mean"%string ->
                 var_trainable conf = false) (variables new)
    /\ Forall (fun op =>
                 In ("training"%string, AttrBool false) (op_attrs op)
                 /\ op_outputs op = ["y"]%string) (user_ops new).
Proof.
  destruct (batch_normalization_training demo_fw init image (-3) mom eps true
              true None None None None None None false true None)
    as (new & Hlog & Hvars & Hops & Hrun).
  exists new. split; [exact Hlog |]. split; [| split].
  - apply Hrun. reflexivity.
  - apply Forall_forall. intros conf Hin Hname. apply Hvars; [exact Hin |].
    left. exact Hname.
  - apply Forall_forall. intros op Hin. apply Hops. exact Hin.
Defined.

Lemma layer_norm_variables_witness :
  exists new,
    trace (snd (ln true true)) = new
    /\ map var_name (variables new)
       = ["LayerNorm_0-beta"; "LayerNorm_0-gamma"]%string
    /\ variables (trace (snd (ln false false))) = [].
Proof.
  destruct (layer_norm_variables demo_fw init x3 true true true 1 (-1)
              (Py.FloatLit "1e-5") None)
    as (new & Hlog & _ & _ & Hnames).
  destruct (layer_norm_variables demo_fw init x3 false false true 1 (-1)
              (Py.FloatLit "1e-5") None)
    as (new0 & Hlog0 & _ & Hnone & _).
  exists new. split; [exact Hlog |]. split.
  - apply Hnames. reflexivity.
  - unfold ln. cbn [trace init app] in Hlog0. rewrite Hlog0.
    apply Hnone; reflexivity.
Defined.

Lemma layer_norm_op_witness :
  exists new,
    trace (snd (ln true false)) = new
    /\ returns_first_output new (mkBlob "LayerNorm_0/y" [4; 5; 16] float32 None).
Proof.
  destruct (layer_norm_op demo_fw init x3 true false true 1 (-1)
              (Py.FloatLit "1e-5") None)
    as (new & Hlog & _ & Hout).
  exists new. split; [exact Hlog |]. apply Hout. reflexivity.
Defined.


Lemma layer_norm_grad_op_witness :
  exists new,
    trace (snd (layer_norm_grad demo_fw x3 x3 x3 x3 1 None init)) = new
    /\ returns_first_output new
         (mkBlob "LayerNormGrad_0/dx" [4; 5; 16] float32 None).
Proof.
  destruct (layer_norm_grad_op demo_fw init x3 x3 x3 x3 1 None)
    as (new & Hlog & _ & _ & Hout).
  exists new. split; [exact Hlog |]. apply Hout. reflexivity.
Defined.

Lemma layer_norm_param_grad_unpack_witness :
  succeeds (fst (layer_norm_param_grad demo_fw x3 x3 x3 (-1) None init)) = true
  /\ is_ValueError
       (fst (layer_norm_param_grad (truncating_fw 1) x3 x3 x3 (-1) None init))
     = true.
Proof.
  split.
  - destruct (layer_norm_param_grad_unpack demo_fw init x3 x3 x3 (-1) None)
      as (new & _ & _ & op & _ & Hout & Hrun).
    unfold demo_fw in Hrun. cbn in Hrun. rewrite Hout in Hrun. cbn in Hrun.
    destruct Hrun as [_ Hres]. reflexivity.
  - destruct (layer_norm_param_grad_unpack (truncating_fw 1) init x3 x3 x3
                (-1) None)
      as (new & _ & _ & op & _ & Hout & Hrun).
    unfold truncating_fw in Hrun. cbn in Hrun. rewrite Hout in Hrun.
    cbn in Hrun. destruct Hrun as [_ Hres]. exact Hres.
Defined.

Lemma dense_returns_only_if_witness :
  succeeds (fst (fc x3 (Some relu) BroadcastDistribute)) = true
  /\ dense_accepts x3 BroadcastDistribute = true.
Proof.
  split; [reflexivity |].
  apply (dense_returns_only_if demo_fw init x3 10 (Some relu) true None None
           None None true None BroadcastDistribute).
  reflexivity.
Defined.

Lemma dense_variables_witness :
  exists new,
    trace (snd (fc x3 None AutoDistribute)) = new
    /\ map var_name (variables new)
       = ["Dense_0-weight"; "Dense_0-bias"]%string
    /\ exists k,
         map var_shape (variables new) = [[10; k]; [10]].
Proof.
  destruct (dense_variables demo_fw init x3 10 None true None None None None
              true None AutoDistribute)
    as (new & Hlog & _ & Hrun).
  destruct (Hrun eq_refl) as (Hnames & k & Hshapes & _).
  exists new. split; [exact Hlog |]. split; [exact Hnames |].
  exists k. exact Hshapes.
Defined.

Lemma conv2d_variables_witness :
  exists new,
    trace (snd (conv 8 "SAME" "NCHW" 1 None)) = new
    /\ map var_name (variables new)
       = ["Conv2D_0-weight"; "Conv2D_0-bias"]%string
    /\ exists weight_shape,
         map var_shape (variables new) = [weight_shape; [8]].
Proof.
  destruct (conv2d_variables demo_fw init image 8 (Py.PInt 3) (Py.PInt 1)
              "SAME" "NCHW" (Py.PInt 1) (Py.PInt 1) None true None None None
              None true None None None)
    as (new & Hlog & _ & Hrun).
  destruct (Hrun eq_refl) as (Hnames & g & ks & w & _ & _ & Hshapes & _).
  exists new. split; [exact Hlog |]. split; [exact Hnames |].
  exists w. exact Hshapes.
Defined.

Lemma batch_normalization_initial_values_witness :
  exists new,
    trace (snd (bn 1 false true)) = new
    /\ initial_values new
       = [inr 0; inl ones_initializer; inl zeros_initializer;
          inl ones_initializer].
Proof.
  destruct (batch_normalization_initial_values demo_fw init image 1 mom eps
              false true None None None None None None true true None)
    as (new & Hlog & Hrun).
  exists new. split; [exact Hlog |]. apply Hrun. reflexivity.
Defined.

Lemma batch_normalization_wiring_witness :
  exists new,
    trace (snd (bn 1 true true)) = new
    /\ returns_first_output new
         (mkBlob "BatchNorm_0/y" [4; 3; 8; 8] float32 None).
Proof.
  destruct (batch_normalization_wiring demo_fw init image 1 mom eps true true
              None None None None None None true true None)
    as (new & Hlog & Hrun).
  exists new. split; [exact Hlog |]. apply Hrun. reflexivity.
Defined.

Lemma upsample_layout_witness :
  exists x' op y rest,
    trace (snd (up (Py.PTuple [2; 3]) "nhwc"))
    = [ OpEvent (transpose image [0; 3; 1; 2]) x';
        UserOpEvent op (y :: rest);
        OpEvent (transpose y [0; 2; 3; 1])
          (mkBlob "transpose:2" [4; 3; 8; 8] float32 None) ]
    /\ consumed op = [x'].
Proof.
  destruct (upsample_layout demo_fw init image (Py.PTuple [2; 3]) "nhwc"
              "nearest" None)
    as (_ & new & Hlog & Hrun).
  cbn [trace init app] in Hlog. unfold up. rewrite Hlog.
  apply (Hrun (mkBlob "transpose:2" [4; 3; 8; 8] float32 None) eq_refl).
Defined.

Lemma default_initializers_witness :
  exists new,
    trace (snd (fc x3 None AutoDistribute)) = new
    /\ map (fun conf => (var_initializer conf, var_regularizer conf))
         (variables new)
       = [ (constant_initializer (Py.NumInt 0), None);
           (constant_initializer (Py.NumInt 0), None) ].
Proof.
  destruct (default_initializers demo_fw init) as (Hdense & _).
  destruct (Hdense x3 10 None true None None None None true None
              AutoDistribute)
    as (new & Hlog & Hrun).
  exists new. split; [exact Hlog |]. apply Hrun. reflexivity.
Defined.

End Runs.
